(** * The Continuous Improvement & Knowledge Hub page

    A shallow embedding of [dashboards/kaizen_training_hub.py]: the three
    static content providers, the page renderer that lays them out in
    three tabs, and the properties of the page that follow from the code.

    The Streamlit calls of the renderer are effects.  They are modelled
    by a small monad that threads the list of calls the display substrate
    has accepted so far and that can raise, so that the [try]/[except]
    of the renderer and the [with] blocks keep their Python meaning. *)

From Stdlib Require Import List String Ascii Bool Arith NArith Lia.
From Stdlib Require Import Permutation Sorted DecimalString OrderedTypeEx.
Import ListNotations.

Open Scope string_scope.
Open Scope list_scope.

Set Implicit Arguments.

(** ** Python strings *)

(** String concatenation, as [+] on [str] and as the pieces of an
    f-string are joined. *)
Infix "+++" := String.append (right associativity, at level 60).

(** The double quote character, for the markup of the training cards. *)
Definition dq : string := String (ascii_of_nat 34) EmptyString.

(** [''.join(parts)]. *)
Definition join (parts : list string) : string :=
  fold_right String.append EmptyString parts.

(** [str(n)] for a non-negative [int]. *)
Definition str_nat (n : nat) : string :=
  NilEmpty.string_of_uint (Nat.to_uint n).

(** A [float] with one fractional digit is held as its number of tenths:
    [2.5] is [25] and [8.0] is [80].  On such a value [str] (and an
    f-string field without a format) gives the whole part, a dot and the
    tenth. *)
Definition tenths := nat.

Definition str_tenths (x : tenths) : string :=
  str_nat (x / 10) +++ "." +++ str_nat (x mod 10).

(** [a < b] and [a <= b] on [str]: code points are compared one by one,
    which on UTF-8 bytes is the comparison of the bytes. *)
Definition str_lt (a b : string) : bool := String.ltb a b.
Definition str_le (a b : string) : bool := String.leb a b.

(** ** Data model *)

(** The records are the dictionaries of the three providers, one field
    per key. *)
Module Kaizen.
Record event := {
  id : string;
  title : string;
  site : string;
  date : string;
  problem_background : string;
  analysis_and_countermeasures : string;
  quantified_results : string;
  key_insight : string
}.
End Kaizen.

Module Training.
Record material := {
  id : string;
  title : string;
  type : string;
  duration_hr : tenths;
  target_audience : string;
  link : string;
  icon : string;
  description : string;
  learning_objectives : list string;
  recommended_reading : string
}.
End Training.

(** A glossary entry has the key [formula] or not: [formula] is [None]
    when the dictionary lacks the key. *)
Module Glossary.
Record item := {
  term : string;
  definition : string;
  formula : option string
}.
End Glossary.

(** The glossary is a [dict] from category to entries.  The page walks it
    with [.items()], in insertion order, so it is held as the list of its
    pairs. *)
Definition glossary_dict := list (string * list Glossary.item).

Definition items (d : glossary_dict) : list (string * list Glossary.item) := d.

(** ** The display substrate *)

(** What a [with] block can enter. *)
Inductive ctx :=
| CtxTab (i : nat)
| CtxContainer
| CtxColumn (i : nat)
| CtxExpander (label : string).

(** One call accepted by the substrate (Streamlit or the logger), with the
    arguments the page passes.  [Enter] and [Exit] mark the [with] blocks. *)
Inductive ui_call :=
| StHeader (body : string)
| StSubheader (body : string)
| StMarkdown (body : string) (unsafe_allow_html : bool)
| StCaption (body : string)
| StInfo (body icon : string)
| StSuccess (body icon : string)
| StWarning (body : string)
| StError (body : string)
| StTabs (labels : list string)
| StContainer (border : bool)
| StColumns (spec : list nat)
| StButton (label key type : string) (disabled use_container_width : bool)
           (help : string)
| StExpander (label : string) (expanded : bool)
| StLatex (body : string)
| StWrite (body : string)
| Enter (c : ctx)
| Exit (c : ctx)
| LoggerError (msg : string) (exc_info : bool).

(** An instance of [Exception]: its class name and [str(e)].  Signals that
    derive from [BaseException] only ([KeyboardInterrupt], [SystemExit])
    are not modelled. *)
Record exn := { exn_class : string; exn_str : string }.

Inductive outcome (A : Type) :=
| Returned (a : A)
| Raised (e : exn).
Arguments Returned {A} a.
Arguments Raised {A} e.

Definition trace := list ui_call.

(** The substrate decides, from what it has accepted so far, whether the
    next call is accepted or raises. *)
Definition toolkit := trace -> ui_call -> option exn.

(** A substrate that accepts every call. *)
Definition reliable : toolkit := fun _ _ => None.

(** ** The monad of page code *)

Definition M (A : Type) := toolkit -> trace -> outcome A * trace.

Definition ret {A} (a : A) : M A := fun _ tr => (Returned a, tr).

Definition bind {A B} (m : M A) (k : A -> M B) : M B :=
  fun tk tr =>
    match m tk tr with
    | (Returned a, tr') => k a tk tr'
    | (Raised e, tr') => (Raised e, tr')
    end.

Definition raise {A} (e : exn) : M A := fun _ tr => (Raised e, tr).

Declare Scope page_scope.
Delimit Scope page_scope with page.
Notation "x <- m ;; k" := (bind m (fun x => k))
  (at level 100, m at next level, right associativity) : page_scope.
Notation "' p <- m ;; k" := (bind m (fun x => let p := x in k))
  (at level 100, p pattern, m at next level, right associativity) : page_scope.
Notation "m ;; k" := (bind m (fun _ => k))
  (at level 100, right associativity) : page_scope.
Open Scope page_scope.

(** [try: body  except Exception as e: handler]. *)
Definition try_except {A} (body : M A) (handler : exn -> M A) : M A :=
  fun tk tr =>
    match body tk tr with
    | (Returned a, tr') => (Returned a, tr')
    | (Raised e, tr') => handler e tk tr'
    end.

(** A call to the substrate: it raises what the substrate raises, and is
    recorded when it is accepted. *)
Definition issue (c : ui_call) : M unit :=
  fun tk tr =>
    match tk tr c with
    | Some e => (Raised e, tr)
    | None => (Returned tt, tr ++ [c])
    end.

(** [with c: body].  Entering and leaving a block only move the place
    where Streamlit draws, so they are recorded without asking the
    substrate.  Leaving is recorded on the way out of an exception too,
    and the exception goes on. *)
Definition with_ {A} (c : ctx) (body : M A) : M A :=
  fun tk tr =>
    let (r, tr') := body tk (tr ++ [Enter c]) in (r, tr' ++ [Exit c]).

(** [for x in l: body]. *)
Fixpoint for_each {A} (l : list A) (body : A -> M unit) : M unit :=
  match l with
  | [] => ret tt
  | x :: l' => body x ;; for_each l' body
  end.

(** [a, b = l] and [a, b, c = l]. *)
Definition unpack_error : exn :=
  {| exn_class := "ValueError"; exn_str := "wrong number of values to unpack" |}.

Definition unpack2 {A} (l : list A) : M (A * A) :=
  match l with
  | [a; b] => ret (a, b)
  | _ => raise unpack_error
  end.

Definition unpack3 {A} (l : list A) : M (A * A * A) :=
  match l with
  | [a; b; c] => ret (a, b, c)
  | _ => raise unpack_error
  end.

(** ** Streamlit and the logger, as the page calls them *)

Module st.
Definition header (body : string) : M unit := issue (StHeader body).
Definition subheader (body : string) : M unit := issue (StSubheader body).
Definition markdown (body : string) : M unit := issue (StMarkdown body false).
Definition markdown_html (body : string) : M unit := issue (StMarkdown body true).
Definition caption (body : string) : M unit := issue (StCaption body).
Definition info (body icon : string) : M unit := issue (StInfo body icon).
Definition success (body icon : string) : M unit := issue (StSuccess body icon).
Definition warning (body : string) : M unit := issue (StWarning body).
Definition error (body : string) : M unit := issue (StError body).
Definition latex (body : string) : M unit := issue (StLatex body).
Definition write (body : string) : M unit := issue (StWrite body).
Definition button (label key type : string) (disabled use_container_width : bool)
    (help : string) : M unit :=
  issue (StButton label key type disabled use_container_width help).

(** The layout calls return the handles a [with] block enters. *)
Definition tabs (labels : list string) : M (list ctx) :=
  issue (StTabs labels) ;; ret (map CtxTab (seq 0 (List.length labels))).
Definition columns (spec : list nat) : M (list ctx) :=
  issue (StColumns spec) ;; ret (map CtxColumn (seq 0 (List.length spec))).
Definition container (border : bool) : M ctx :=
  issue (StContainer border) ;; ret CtxContainer.
Definition expander (label : string) (expanded : bool) : M ctx :=
  issue (StExpander label expanded) ;; ret (CtxExpander label).
End st.

Module logger.
Definition error (msg : string) (exc_info : bool) : M unit :=
  issue (LoggerError msg exc_info).
End logger.

(** ** pandas, as far as the page uses it *)

Module pd.
(** A frame is the list of its rows, each with its index label. *)
Definition DataFrame (A : Type) := list (nat * A).

(** [pd.DataFrame(records)]: the labels are the positions. *)
Definition from_records {A} (records : list A) : DataFrame A :=
  combine (seq 0 (List.length records)) records.

(** A stable ascending sort on a string key. *)
Fixpoint insert_row {A} (key : A -> string) (r : nat * A) (l : DataFrame A)
    : DataFrame A :=
  match l with
  | [] => [r]
  | r' :: l' =>
      if str_le (key (snd r)) (key (snd r')) then r :: r' :: l'
      else r' :: insert_row key r l'
  end.

Fixpoint sort_ascending {A} (key : A -> string) (l : DataFrame A) : DataFrame A :=
  match l with
  | [] => []
  | r :: l' => insert_row key r (sort_ascending key l')
  end.

(** [df.sort_values(by=key, ascending=...)].  For a descending sort
    pandas reverses the rows, sorts them ascending and reverses the
    result.  Rows with equal keys come out here as a stable sort leaves
    them, which pandas promises for its stable kinds only; the page
    calls it with the default kind, quicksort, which need not keep that
    order on a longer frame.  Nothing below depends on the order of rows
    with equal keys. *)
Definition sort_values {A} (key : A -> string) (ascending : bool)
    (df : DataFrame A) : DataFrame A :=
  if ascending then sort_ascending key df
  else rev (sort_ascending key (rev df)).

(** [df.iterrows()]: the pairs of label and row, in frame order. *)
Definition iterrows {A} (df : DataFrame A) : list (nat * A) := df.
End pd.

(** ** The three providers *)

Definition get_overhauled_kaizen_data : M (list Kaizen.event) :=
  ret [
    {| Kaizen.id := "KZN-02";
       Kaizen.title := "SMED on Stamping Press P-101";
       Kaizen.site := "Andover, US";
       Kaizen.date := "2025-06-15";
       Kaizen.problem_background := "The Stamping Press P-101 has an average changeover time of 55 minutes, causing significant production downtime and limiting our ability to run smaller, more flexible batch sizes. This fails to meet the operational target of <15 minutes.";
       Kaizen.analysis_and_countermeasures := "
            - **Analysis:** A Gemba walk and video analysis (based on Shigeo Shingo's SMED methodology) revealed that 70% of changeover activities were 'internal' (machine stopped). Key opportunities included pre-staging dies, standardizing tools, and eliminating manual adjustments.
            - **Countermeasures Implemented:**
                1.  **Converted Internal to External:** Designed a pre-heating cart for the next die set.
                2.  **Standardized Clamping:** Replaced multi-size bolts with standardized, quick-release clamps.
                3.  **Introduced Poka-Yoke:** Added alignment pins to the die-set to eliminate measurement adjustments.
                4.  **Created Standard Work:** Developed a one-page visual guide for the 2-person changeover team.
            ";
       Kaizen.quantified_results := "Reduced average changeover time from 55 minutes to 9 minutes (an 83% reduction). This unlocked an additional 120 minutes of production capacity per day and enabled an immediate move to a 'pull' system for downstream assembly.";
       Kaizen.key_insight := "The biggest gains came not from operators working faster, but from eliminating entire steps of the process. True efficiency is in the design of the work itself, not the effort of the worker." |};
    {| Kaizen.id := "KZN-01";
       Kaizen.title := "5S Implementation in Main Assembly Cell";
       Kaizen.site := "Eindhoven, NL";
       Kaizen.date := "2025-05-22";
       Kaizen.problem_background := "The Main Assembly cell was experiencing frequent micro-stoppages due to operators searching for tools, components, and fixtures. This introduced significant variability into the Takt time and was a source of operator frustration.";
       Kaizen.analysis_and_countermeasures := "
            - **Analysis:** A spaghetti diagram of operator movement during a single shift revealed over 400 meters of unnecessary walking. The root cause was a lack of standardized locations for tools and materials.
            - **Countermeasures Implemented (5S):**
                1.  **Sort:** Red-tagged all non-essential items; 3 skids of clutter were removed.
                2.  **Set in Order:** Created shadow boards for all hand tools. Implemented a color-coded bin system for fasteners.
                3.  **Shine:** Conducted a deep clean and established a daily 5-minute cleaning schedule.
                4.  **Standardize:** Laminated standard work instructions for tool placement and end-of-shift cleanup.
                5.  **Sustain:** Added 5S adherence to the daily Gemba walk checklist and supervisor standard work.
            ";
       Kaizen.quantified_results := "Eliminated 95% of 'searching' time, reducing average assembly time by 15%. Operator-reported ergonomic strain and frustration decreased significantly, confirmed by a post-event survey (results redacted for privacy).";
       Kaizen.key_insight := "A clean and organized workplace is not about aesthetics; it is a prerequisite for quality and efficiency. When everything has a place, deviations from standard become immediately visible." |};
    {| Kaizen.id := "KZN-04";
       Kaizen.title := "Invoice Processing Lead Time Reduction";
       Kaizen.site := "Corporate HQ";
       Kaizen.date := "2025-07-20";
       Kaizen.problem_background := "The average lead time from invoice receipt to payment approval is 18 days, causing late payment fees and straining supplier relationships. The goal was to reduce this to <5 days by eliminating non-value-added steps.";
       Kaizen.analysis_and_countermeasures := "
            - **Analysis:** A detailed process map and swimlane diagram revealed significant 'waiting' waste. 80% of the lead time was spent in queues awaiting manual review, data entry into three separate systems, and manager approval.
            - **Countermeasures Implemented:**
                1.  **Eliminated Redundant Data Entry:** Utilized robotic process automation (RPA) to sync data between systems after initial entry.
                2.  **Established Standard Work:** Created a clear policy for approval thresholds, empowering clerks to approve payments below $5,000 without manager sign-off.
                3.  **Visual Management:** Implemented a digital Kanban board (To Do, In Progress, Done) for full visibility of the invoice workload.
            ";
       Kaizen.quantified_results := "Reduced average lead time from 18 days to 3.5 days. Eliminated all late payment fees in the first quarter post-implementation, saving an estimated $120k annually.";
       Kaizen.key_insight := "Lean principles are not just for the factory floor. Transactional processes are often filled with the most 'hidden' waste, offering huge opportunities for improvement." |};
    {| Kaizen.id := "KZN-03";
       Kaizen.title := "Root Cause Analysis (RCA) of Intermittent Sensor Failures";
       Kaizen.site := "Shanghai, CN";
       Kaizen.date := "2025-07-01";
       Kaizen.problem_background := "The final test stage for the Affiniti Ultrasound system was experiencing a 4% failure rate due to intermittent 'Signal Lost' errors from a key pressure sensor, causing costly rework and diagnostic time.";
       Kaizen.analysis_and_countermeasures := "
            - **Analysis:** An Ishikawa (Fishbone) diagram was used to brainstorm potential causes. The '5 Whys' technique was then applied to the most likely cause, 'Incorrect Connector Seating'.
                1. **Why?** The connector was not fully seated.
                2. **Why?** The operator could not get enough leverage.
                3. **Why?** The access angle was awkward.
                4. **Why?** A new bracket was installed in a previous update.
                5. **Why? (Root Cause)** The bracket design did not account for tool clearance for the sensor connector.
            - **Countermeasure Implemented:** A cross-functional team of engineering and manufacturing redesigned the bracket with an access cutout. A torque-limiting screwdriver with an audible 'click' was also introduced as a Poka-Yoke.
            ";
       Kaizen.quantified_results := "Reduced the specific 'Signal Lost' failure rate from 4% to 0.1% within one week of implementation. Rework costs were reduced by an estimated $250k annually.";
       Kaizen.key_insight := "Technical problems are often symptoms of process or design flaws. Persistently asking 'Why' moves the team beyond blaming components or people to fixing the underlying system." |}
  ].

Definition get_overhauled_training_data : M (list Training.material) :=
  ret [
    {| Training.id := "TRN-101";
       Training.title := "A3 Thinking: The Art of Problem Solving on a Single Page";
       Training.type := "eLearning";
       Training.duration_hr := 25;
       Training.target_audience := "Engineers, Team Leads, Managers";
       Training.link := "#";
       Training.icon := "📝";
       Training.description := "This module explores the Toyota Production System's powerful A3 methodology, which structures problem-solving into a narrative format on a single sheet of A3-sized paper. It is a tool for mentorship, clear communication, and data-driven decision making.";
       Training.learning_objectives := [
         "Understand the 7 sections of a standard A3 Report.";
         "Frame a problem statement effectively.";
         "Use the PDCA (Plan-Do-Check-Act) cycle within the A3 framework.";
         "Visually communicate root cause analysis and countermeasures." ];
       Training.recommended_reading := "'Managing to Learn' by John Shook" |};
    {| Training.id := "TRN-102";
       Training.title := "Statistical Process Control (SPC) Masterclass";
       Training.type := "Workshop Slides";
       Training.duration_hr := 80;
       Training.target_audience := "Quality Engineers, Process Technicians";
       Training.link := "#";
       Training.icon := "📊";
       Training.description := "A deep dive into the principles of Dr. W. Edwards Deming and Walter Shewhart. This workshop provides the statistical foundation for understanding process variation, distinguishing between common and special causes, and using control charts to monitor and improve process stability.";
       Training.learning_objectives := [
         "Calculate control limits for I-MR, Xbar-R, and p-charts.";
         "Interpret control chart signals (e.g., Nelson Rules).";
         "Define and calculate process capability indices (Cp, Cpk).";
         "Understand the relationship between process control and process capability." ];
       Training.recommended_reading := "'Understanding Variation: The Key to Managing Chaos' by Donald J. Wheeler" |};
    {| Training.id := "TRN-103";
       Training.title := "Leading Kaizen Events: A Facilitator's Guide";
       Training.type := "PDF Guide";
       Training.duration_hr := 40;
       Training.target_audience := "MBB, Black Belts, CI Leads";
       Training.link := "#";
       Training.icon := "🤝";
       Training.description := "This guide provides a practical, step-by-step framework for planning, executing, and sustaining a successful week-long Kaizen event. It covers team selection, scoping, daily management, and follow-up activities to ensure that improvements are not only made but also maintained.";
       Training.learning_objectives := [
         "Develop a compelling Kaizen charter.";
         "Manage team dynamics and engage stakeholders.";
         "Facilitate brainstorming and root cause analysis sessions.";
         "Establish a 30-day follow-up plan to ensure sustainability." ];
       Training.recommended_reading := "'Kaizen: The Key to Japan's Competitive Success' by Masaaki Imai" |};
    {| Training.id := "TRN-104";
       Training.title := "Failure Mode and Effects Analysis (FMEA)";
       Training.type := "eLearning";
       Training.duration_hr := 30;
       Training.target_audience := "Engineering, R&D, Quality";
       Training.link := "#";
       Training.icon := "🛡️";
       Training.description := "Learn to proactively identify and mitigate risks in product and process design. This module teaches the systematic approach of FMEA to anticipate potential failures, assess their impact, and implement robust controls before problems reach the customer.";
       Training.learning_objectives := [
         "Distinguish between Design FMEAs and Process FMEAs.";
         "Calculate Risk Priority Numbers (RPN).";
         "Develop effective detection and prevention controls.";
         "Integrate FMEA into the product development lifecycle." ];
       Training.recommended_reading := "'The FMEA Pocket Handbook' by D. H. Stamatis" |};
    {| Training.id := "TRN-105";
       Training.title := "Value Stream Mapping (VSM)";
       Training.type := "Workshop Slides";
       Training.duration_hr := 60;
       Training.target_audience := "Operations, CI Leads, Management";
       Training.link := "#";
       Training.icon := "🌊";
       Training.description := "This workshop teaches you how to see the flow of value and, more importantly, the flow of waste. Learn to create current-state and future-state maps that visualize not just material flow, but information flow, to design truly lean systems from end to end.";
       Training.learning_objectives := [
         "Identify a value stream and its product family.";
         "Calculate key metrics like Lead Time, Process Time, and Process Cycle Efficiency.";
         "Draw current-state and future-state maps using standard iconography.";
         "Develop a Kaizen-based implementation plan." ];
       Training.recommended_reading := "'Learning to See' by Mike Rother and John Shook" |}
  ].

Definition get_glossary_content : M glossary_dict :=
  ret [
    ("Lean Principles", [
       {| Glossary.term := "Takt Time";
          Glossary.definition := "The rate at which a finished product needs to be completed to meet customer demand. It is the 'heartbeat' of a lean system.";
          Glossary.formula := Some "Takt\ Time = \frac{\text{Available Production Time per Day}}{\text{Customer Demand per Day}}" |};
       {| Glossary.term := "Gemba (現場)";
          Glossary.definition := "Japanese for 'the real place.' It refers to the location where value is created, such as the factory floor or a service desk.";
          Glossary.formula := None |};
       {| Glossary.term := "Kaizen (改善)";
          Glossary.definition := "A strategy of 'Continuous Improvement' where small, ongoing, positive changes are made to a process. It emphasizes employee involvement and a culture of incremental enhancement.";
          Glossary.formula := None |};
       {| Glossary.term := "Muda (無駄), Mura (斑), Muri (無理)";
          Glossary.definition := "The '3 M's' of waste in the Toyota Production System. **Muda:** Non-value-added waste. **Mura:** Unevenness or irregularity. **Muri:** Overburdening equipment or operators.";
          Glossary.formula := None |};
       {| Glossary.term := "Muda (無駄)";
          Glossary.definition := "Japanese for 'waste.' It refers to any activity that consumes resources but creates no value for the customer. The 7 classic wastes are: Transport, Inventory, Motion, Waiting, Overproduction, Over-processing, and Defects (TIMWOOD).";
          Glossary.formula := None |};
       {| Glossary.term := "Jidoka (自働化)";
          Glossary.definition := "Autonomation or 'automation with a human touch.' The principle of designing equipment to stop automatically and signal immediately when a problem occurs, preventing the mass production of defects.";
          Glossary.formula := None |};
       {| Glossary.term := "Heijunka (平準化)";
          Glossary.definition := "Production leveling. The process of smoothing the type and quantity of production over a fixed period. This reduces Mura (unevenness) and minimizes inventory.";
          Glossary.formula := None |};
       {| Glossary.term := "Kanban (看板)";
          Glossary.definition := "A scheduling system for lean manufacturing and just-in-time manufacturing (JIT). It is a visual signal (e.g., a card) that triggers an action, such as replenishing a part.";
          Glossary.formula := None |};
       {| Glossary.term := "Poka-Yoke (ポカヨケ)";
          Glossary.definition := "A 'mistake-proofing' mechanism. Any technique in a process that helps to avoid errors by preventing, correcting, or drawing attention to them as they occur.";
          Glossary.formula := None |};
       {| Glossary.term := "Value Stream Mapping (VSM)";
          Glossary.definition := "A flowchart method used to visualize, analyze, and improve all the steps in a product delivery process, from raw materials to the customer. It helps identify and eliminate waste (Muda).";
          Glossary.formula := None |};
       {| Glossary.term := "5S";
          Glossary.definition := "A workplace organization method based on five Japanese words: Seiri (Sort), Seiton (Set in Order), Seisō (Shine), Seiketsu (Standardize), and Shitsuke (Sustain).";
          Glossary.formula := None |} ]);
    ("Six Sigma Concepts", [
       {| Glossary.term := "DMAIC";
          Glossary.definition := "The core data-driven improvement cycle: **D**efine the problem, **M**easure key aspects of the current process, **A**nalyze the data to investigate root causes, **I**mprove the process, and **C**ontrol the future state.";
          Glossary.formula := None |};
       {| Glossary.term := "DPMO (Defects Per Million Opportunities)";
          Glossary.definition := "A key metric for process performance. It represents the number of defects in a process per one million opportunities. A Six Sigma process aims for 3.4 DPMO.";
          Glossary.formula := Some "DPMO = \frac{\text{Number of Defects}}{\text{Number of Units} \times \text{Opportunities per Unit}} \times 1,000,000" |};
       {| Glossary.term := "Process Capability (Cp)";
          Glossary.definition := "Measures the potential capability of a process, assuming it is perfectly centered between the specification limits. It answers: 'Is the process spread narrow enough?'";
          Glossary.formula := Some "C_p = \frac{USL - LSL}{6\sigma}" |};
       {| Glossary.term := "Process Capability (Cpk)";
          Glossary.definition := "Measures the actual capability of a process, accounting for its centering. It represents the 'worst-case' side of the process distribution. A Cpk of >1.33 is often a minimum target.";
          Glossary.formula := Some "C_{pk} = \min\left(\frac{USL - \mu}{3\sigma}, \frac{\mu - LSL}{3\sigma}\right)" |};
       {| Glossary.term := "COPQ (Cost of Poor Quality)";
          Glossary.definition := "The total financial loss incurred from producing defective products or services. Includes internal failure costs (scrap, rework) and external failure costs (warranty claims, returns).";
          Glossary.formula := None |};
       {| Glossary.term := "Voice of the Customer (VOC)";
          Glossary.definition := "The process of capturing customer expectations, preferences, and aversions. The VOC is translated into Critical-to-Quality (CTQ) requirements for the process.";
          Glossary.formula := None |};
       {| Glossary.term := "Rolled Throughput Yield (RTY)";
          Glossary.definition := "The probability that a multi-step process will produce a defect-free unit. It is the product of the First Time Yields (FTY) of each process step.";
          Glossary.formula := Some "RTY = FTY_1 \times FTY_2 \times \dots \times FTY_n" |} ]);
    ("Statistical & Analytical Methods", [
       {| Glossary.term := "Control Chart Limits";
          Glossary.definition := "The horizontal lines on a control chart (UCL/LCL) that represent the 'voice of the process.' They are calculated from the process data and typically set at ±3 standard deviations from the center line.";
          Glossary.formula := Some "UCL/LCL = \mu \pm 3\sigma" |};
       {| Glossary.term := "Hypothesis Testing";
          Glossary.definition := "A formal statistical procedure used to accept or reject a claim about a process or population based on sample data. It involves a Null Hypothesis (H₀, the status quo) and an Alternative Hypothesis (Hₐ).";
          Glossary.formula := None |};
       {| Glossary.term := "p-value";
          Glossary.definition := "The probability of obtaining test results at least as extreme as the results actually observed, assuming the null hypothesis is correct. A small p-value (typically ≤ 0.05) indicates strong evidence against the null hypothesis.";
          Glossary.formula := None |};
       {| Glossary.term := "ANOVA (Analysis of Variance)";
          Glossary.definition := "A statistical test used to determine whether there are any statistically significant differences between the means of two or more independent groups.";
          Glossary.formula := None |};
       {| Glossary.term := "Confidence Interval";
          Glossary.definition := "A range of values, derived from sample statistics, that is likely to contain the value of an unknown population parameter. A 95% confidence interval means we are 95% confident the true population mean lies within that range.";
          Glossary.formula := None |};
       {| Glossary.term := "Gage R&R (Repeatability & Reproducibility)";
          Glossary.definition := "A statistical study to evaluate the precision of a measurement system. **Repeatability** is the variation from the same operator using the same tool. **Reproducibility** is the variation between different operators using the same tool.";
          Glossary.formula := None |};
       {| Glossary.term := "Regression Analysis";
          Glossary.definition := "A set of statistical processes for estimating the relationships between a dependent variable (the 'output' or 'Y') and one or more independent variables (the 'inputs' or 'X's').";
          Glossary.formula := None |};
       {| Glossary.term := "Design of Experiments (DOE)";
          Glossary.definition := "A systematic method to determine the relationship between factors affecting a process and the output of that process. Used to find the optimal 'recipe' for a process with minimal experimental runs.";
          Glossary.formula := None |} ]);
    ("AI/ML for Operations", [
       {| Glossary.term := "Supervised Learning";
          Glossary.definition := "A type of machine learning where the model learns from data that has been manually labeled with the correct outcomes. Analogy: Learning with an 'answer key.' (e.g., training a model on historical data of 'Pass' vs. 'Fail' parts).";
          Glossary.formula := None |};
       {| Glossary.term := "Unsupervised Learning";
          Glossary.definition := "A type of machine learning where the model works on its own to discover patterns and information in unlabeled data. Analogy: Finding hidden groups without an answer key. (e.g., K-Means clustering to find different failure modes).";
          Glossary.formula := None |};
       {| Glossary.term := "Isolation Forest";
          Glossary.definition := "An unsupervised algorithm excellent for anomaly detection. It works by 'isolating' outliers, which are easier to separate from the main data cluster.";
          Glossary.formula := None |};
       {| Glossary.term := "Random Forest";
          Glossary.definition := "A powerful supervised learning algorithm that is an 'ensemble' of many individual decision trees. It averages their predictions to produce a more accurate and stable result. Excellent for predictive quality tasks.";
          Glossary.formula := None |};
       {| Glossary.term := "SHAP (SHapley Additive exPlanations)";
          Glossary.definition := "A game-theoretic approach used to explain the output of any machine learning model. It connects optimal credit allocation with local explanations to understand *why* a model made a specific prediction for a single instance.";
          Glossary.formula := None |} ])
  ].

(** ** The page renderer *)

(** The bindings of the three provider names in the module's globals.
    Python looks a global up when the call is made, so the renderer runs
    whatever is bound there; [hub] is the module as it is written. *)
Record module_globals := {
  kaizen_provider : M (list Kaizen.event);
  training_provider : M (list Training.material);
  glossary_provider : M glossary_dict
}.

Definition hub : module_globals :=
  {| kaizen_provider := get_overhauled_kaizen_data;
     training_provider := get_overhauled_training_data;
     glossary_provider := get_glossary_content |}.

(** The bordered block of one event (the body of the first loop). *)
Definition event_block (event : Kaizen.event) : M unit :=
  box <- st.container true ;;
  with_ box (
    cols <- st.columns [3; 1] ;;
    '(col1, col2) <- unpack2 cols ;;
    with_ col1 (
      st.markdown ("#### " +++ Kaizen.title event) ;;
      st.caption ("**A3 ID:** " +++ Kaizen.id event +++ " | **Site:** " +++ Kaizen.site event
                  +++ " | **Completion Date:** " +++ Kaizen.date event)) ;;
    with_ col2 (
      st.button "View Full A3 Report" ("report_" +++ Kaizen.id event) "primary" true true
                "Full PDF report not available in this demo.") ;;
    st.markdown "**Problem Background:**" ;;
    st.markdown ("> " +++ Kaizen.problem_background event) ;;
    details <- st.expander "**View Detailed Analysis & Countermeasures**" false ;;
    with_ details (
      st.markdown (Kaizen.analysis_and_countermeasures event) ;;
      st.caption "_Detailed schematics, raw data, and financial models are redacted from this view and available in the full A3 report._") ;;
    st.markdown "**Quantified Results:**" ;;
    st.success (Kaizen.quantified_results event) "💡" ;;
    st.markdown "**Key Insight / Lesson Learned:**" ;;
    st.info (Kaizen.key_insight event) "🔬") ;;
  st.write "".

(** The body of [with events_tab:]. *)
Definition events_tab_body (kaizen_events : list Kaizen.event) : M unit :=
  st.subheader "Implementing Kaizen: A Chronicle of Realized Improvements" ;;
  st.markdown "Each event below is a testament to a team's dedication to making our work better. Review these A3 summaries to understand the 'Why' behind the change and to find inspiration for your own area." ;;
  match kaizen_events with
  | [] => st.warning "No Kaizen events have been logged in the data model."
  | _ =>
      let df_events := pd.sort_values Kaizen.date false (pd.from_records kaizen_events) in
      for_each (pd.iterrows df_events) (fun '(_, event) => event_block event)
  end.

(** The markup of one training card (the f-string of the second loop). *)
Definition training_card (material : Training.material) : string :=
  "
                    <div style=" +++ dq +++ "border: 1px solid #c8c8c8; border-left: 6px solid #007bff; border-radius: 8px; padding: 20px; margin-bottom: 15px; box-shadow: 0 2px 4px rgba(0,0,0,0.1);" +++ dq +++ ">
                        <div style=" +++ dq +++ "display: flex; align-items: flex-start;" +++ dq +++ ">
                            <span style=" +++ dq +++ "font-size: 2.5em; margin-right: 25px; margin-top: 5px;" +++ dq +++ ">"
  +++ Training.icon material
  +++ "</span>
                            <div style=" +++ dq +++ "flex-grow: 1;" +++ dq +++ ">
                                <div style=" +++ dq +++ "font-weight: bold; font-size: 1.2em; margin-bottom: 5px;" +++ dq +++ ">"
  +++ Training.title material
  +++ "</div>
                                <div style=" +++ dq +++ "font-size: 0.9em; color: #555; margin-bottom: 15px;" +++ dq +++ ">
                                    <span><b>Type:</b> "
  +++ Training.type material
  +++ "</span> |
                                    <span><b>Est. Duration:</b> "
  +++ str_tenths (Training.duration_hr material)
  +++ " hrs</span> |
                                    <span><b>Primary Audience:</b> "
  +++ Training.target_audience material
  +++ "</span>
                                </div>
                                <p style=" +++ dq +++ "font-size: 1em; color: #333; margin-bottom: 15px;" +++ dq +++ ">"
  +++ Training.description material
  +++ "</p>
                                <div style=" +++ dq +++ "background-color: #f8f9fa; padding: 10px; border-radius: 5px; font-size: 0.9em;" +++ dq +++ ">
                                    <b>Learning Objectives:</b>
                                    <ul>"
  +++ join (map (fun obj => "<li>" +++ obj +++ "</li>") (Training.learning_objectives material))
  +++ "</ul>
                                    <b>Recommended Reading:</b> <i>"
  +++ Training.recommended_reading material
  +++ "</i>
                                </div>
                                <a href=" +++ dq +++ ""
  +++ Training.link material
  +++ "" +++ dq +++ " target=" +++ dq +++ "_blank" +++ dq +++ " style=" +++ dq +++ "display: inline-block; background-color: #007bff; color: white; padding: 8px 15px; margin-top: 15px; border-radius: 5px; text-decoration: none; font-weight: bold;" +++ dq +++ ">Launch Module</a>
                            </div>
                        </div>
                    </div>
                    ".

(** The body of [with training_tab:]. *)
Definition training_tab_body (training_materials : list Training.material) : M unit :=
  st.subheader "Empowering Excellence Through Education" ;;
  st.markdown "A commitment to quality begins with a commitment to learning. This curated library provides resources to develop skills at every level of the organization, from foundational principles to advanced statistical methods." ;;
  match training_materials with
  | [] => st.warning "No training materials are available in the data model."
  | _ =>
      let df_training := pd.from_records training_materials in
      for_each (pd.iterrows df_training)
               (fun '(_, material) => st.markdown_html (training_card material))
  end.

(** One glossary entry (the body of the inner loop of the third tab). *)
Definition glossary_item (item : Glossary.item) : M unit :=
  st.markdown ("**" +++ Glossary.term item +++ "**") ;;
  st.markdown ("> " +++ Glossary.definition item) ;;
  match Glossary.formula item with
  | Some formula => st.latex formula
  | None => ret tt
  end ;;
  st.write "".

(** One category of the glossary (the body of the outer loop). *)
Definition glossary_category (entry : string * list Glossary.item) : M unit :=
  let '(category, terms) := entry in
  section <- st.expander ("**" +++ category +++ "**")
                         (String.eqb category "Lean Principles") ;;
  with_ section (for_each terms glossary_item).

(** The body of [with glossary_tab:]. *)
Definition glossary_tab_body (glossary : glossary_dict) : M unit :=
  st.subheader "The Common Language of Continuous Improvement" ;;
  st.markdown "Use this dictionary to understand the key terms, concepts, and methodologies that form the foundation of our operational excellence program. A shared vocabulary is essential for effective collaboration and problem-solving." ;;
  for_each (items glossary) glossary_category.

(** What the [try] block of the renderer does. *)
Definition page_body (g : module_globals) : M unit :=
  kaizen_events <- kaizen_provider g ;;
  training_materials <- training_provider g ;;
  glossary <- glossary_provider g ;;
  st.info "Select a tab to review the A3 reports from past Kaizen events or to access our curated library of quality and CI training." "🧠" ;;
  page_tabs <- st.tabs ["🏆 **Kaizen Event A3 Log**"; "📚 **Training & Development Library**"; "📖 **Methodologies & Terminology Glossary**"] ;;
  '(events_tab, training_tab, glossary_tab) <- unpack3 page_tabs ;;
  with_ events_tab (events_tab_body kaizen_events) ;;
  with_ training_tab (training_tab_body training_materials) ;;
  with_ glossary_tab (glossary_tab_body glossary).

(** What the [except Exception as e] clause does. *)
Definition page_handler (e : exn) : M unit :=
  st.error ("An error occurred while rendering the Kaizen & Training Hub: " +++ exn_str e) ;;
  logger.error ("Failed to render kaizen and training hub: " +++ exn_str e) true.

Definition page_header : ui_call := StHeader "🎓 Continuous Improvement & Knowledge Hub".

Definition page_intro : ui_call := StMarkdown "
    Welcome to the central nervous system of our learning organization. This hub is the catalyst for our Continuous Improvement (CI) culture.
    Here, we **celebrate our successes**, **share our wisdom**, and **empower our teams** with the knowledge to drive process excellence.
    " false.

(** [render_kaizen_training_hub(ssm)], run in a module whose provider
    names are bound as [g] says.  The state handle is not used. *)
Definition render_kaizen_training_hub {SSM : Type} (g : module_globals) (ssm : SSM)
    : M unit :=
  issue page_header ;;
  issue page_intro ;;
  try_except (page_body g) page_handler.

(** ** Reading what a run displayed *)

(** The calls a piece of page code gets displayed on a substrate that
    accepts every call, starting from an empty page. *)
Definition displayed (m : M unit) : trace := snd (m reliable []).

(** A substrate accepts a call when it does so whatever came before. *)
Definition accepts (tk : toolkit) (c : ui_call) : Prop :=
  forall tr, tk tr c = None.

Definition count (p : ui_call -> bool) (tr : trace) : nat :=
  List.length (filter p tr).

Definition is_warning (c : ui_call) : bool :=
  match c with StWarning _ => true | _ => false end.

Definition is_error_banner (c : ui_call) : bool :=
  match c with StError _ => true | _ => false end.

Definition is_log_entry (c : ui_call) : bool :=
  match c with LoggerError _ _ => true | _ => false end.

Definition is_latex (c : ui_call) : bool :=
  match c with StLatex _ => true | _ => false end.

(** The item blocks of the three panels: the bordered container of an
    event, the markup card of a training material, and the collapsible
    section of a glossary category with the term lines inside it. *)
Definition is_event_block (c : ui_call) : bool :=
  match c with StContainer _ => true | _ => false end.

Definition is_card (c : ui_call) : bool :=
  match c with StMarkdown _ true => true | _ => false end.

Definition is_section (c : ui_call) : bool :=
  match c with StExpander _ _ => true | _ => false end.

Definition button_keys (tr : trace) : list string :=
  flat_map (fun c => match c with StButton _ key _ _ _ _ => [key] | _ => [] end) tr.

Definition cards (tr : trace) : list string :=
  flat_map (fun c => match c with StMarkdown body true => [body] | _ => [] end) tr.

Definition sections (tr : trace) : list (string * bool) :=
  flat_map (fun c => match c with StExpander label expanded => [(label, expanded)]
                             | _ => [] end) tr.

Definition latex_calls (tr : trace) : list string :=
  flat_map (fun c => match c with StLatex body => [body] | _ => [] end) tr.

Definition is_enter_tab (i : nat) (c : ui_call) : bool :=
  match c with Enter (CtxTab j) => Nat.eqb i j | _ => false end.

Definition is_exit_tab (i : nat) (c : ui_call) : bool :=
  match c with Exit (CtxTab j) => Nat.eqb i j | _ => false end.

Fixpoint until_exit_tab (i : nat) (tr : trace) : trace :=
  match tr with
  | [] => []
  | c :: tr' => if is_exit_tab i c then [] else c :: until_exit_tab i tr'
  end.

(** The calls made inside tab [i]: those between entering and leaving it. *)
Fixpoint panel (i : nat) (tr : trace) : trace :=
  match tr with
  | [] => []
  | c :: tr' => if is_enter_tab i c then until_exit_tab i tr' else panel i tr'
  end.

(** [needle in hay], and the number of places where [needle] starts in
    [hay]. *)
Fixpoint contains (needle hay : string) : bool :=
  String.prefix needle hay ||
  match hay with
  | EmptyString => false
  | String _ hay' => contains needle hay'
  end.

Fixpoint occurrences (needle hay : string) : nat :=
  (if String.prefix needle hay then 1 else 0) +
  match hay with
  | EmptyString => 0
  | String _ hay' => occurrences needle hay'
  end.

(** The report key of an event's button, [f"report_{event['id']}"]. *)
Definition report_key (event : Kaizen.event) : string :=
  "report_" +++ Kaizen.id event.

(** The formulas of a glossary, in display order. *)
Definition formula_list (item : Glossary.item) : list string :=
  match Glossary.formula item with Some f => [f] | None => [] end.

Definition formulas_of (glossary : glossary_dict) : list string :=
  flat_map (fun entry => flat_map formula_list (snd entry)) glossary.

(** ** Particular substrates and modules *)

Definition display_down : exn :=
  {| exn_class := "RuntimeError"; exn_str := "display unavailable" |}.

(** A substrate that cannot show a header. *)
Definition rejects_header : toolkit :=
  fun _ c => match c with StHeader _ => Some display_down | _ => None end.

Definition provider_failure : exn :=
  {| exn_class := "RuntimeError"; exn_str := "event store offline" |}.

(** The module with the event provider replaced by one that raises. *)
Definition hub_with_failing_events : module_globals :=
  {| kaizen_provider := raise provider_failure;
     training_provider := get_overhauled_training_data;
     glossary_provider := get_glossary_content |}.

(** The module with the glossary provider replaced by one that returns
    an empty mapping. *)
Definition hub_with_empty_glossary : module_globals :=
  {| kaizen_provider := get_overhauled_kaizen_data;
     training_provider := get_overhauled_training_data;
     glossary_provider := ret [] |}.

(** The events in the order the Event Log walks them. *)
Definition event_rows (kaizen_events : list Kaizen.event) : list Kaizen.event :=
  map snd (pd.iterrows (pd.sort_values Kaizen.date false (pd.from_records kaizen_events))).

(** What the Event Log panel shows above its blocks or its placeholder. *)
Definition events_tab_intro : trace :=
  [StSubheader "Implementing Kaizen: A Chronicle of Realized Improvements";
   StMarkdown "Each event below is a testament to a team's dedication to making our work better. Review these A3 summaries to understand the 'Why' behind the change and to find inspiration for your own area." false].

(** ** Calendar dates *)

(** The order the page sorts by is the order of the date strings.  To
    compare it with the order of the days the strings stand for, a date
    string is read as [int(field)] of each field of [date.split('-')]:
    year, month, day. *)
Definition digit_of (c : ascii) : option nat :=
  let n := nat_of_ascii c in
  if Nat.leb 48 n && Nat.leb n 57 then Some (n - 48) else None.

Definition is_digit (c : ascii) : bool :=
  match digit_of c with Some _ => true | None => false end.

Fixpoint read_fields (s : string) (field : option nat) : option (list nat) :=
  match s with
  | EmptyString => option_map (fun n => [n]) field
  | String c s' =>
      if Ascii.eqb c "-" then
        match field, read_fields s' None with
        | Some n, Some rest => Some (n :: rest)
        | _, _ => None
        end
      else
        match digit_of c with
        | Some d =>
            read_fields s' (Some (10 * match field with Some n => n | None => 0 end + d))
        | None => None
        end
  end.

Definition calendar_date (s : string) : option (nat * nat * nat) :=
  match read_fields s None with
  | Some [y; m; d] => Some (y, m, d)
  | _ => None
  end.

(** The order of days: by year, then month, then day. *)
Definition chron_compare (a b : nat * nat * nat) : comparison :=
  let '(y1, m1, d1) := a in
  let '(y2, m2, d2) := b in
  match Nat.compare y1 y2 with
  | Eq => match Nat.compare m1 m2 with
          | Eq => Nat.compare d1 d2
          | c => c
          end
  | c => c
  end.

(** [a] is a day no later than [b]; false when one of them is no date. *)
Definition not_after (a b : string) : bool :=
  match calendar_date a, calendar_date b with
  | Some x, Some y => match chron_compare x y with Gt => false | _ => true end
  | _, _ => false
  end.

(** Zero-padded ISO: four digits, a dash, two digits, a dash, two digits. *)
Definition is_iso_date (s : string) : bool :=
  match s with
  | String y1 (String y2 (String y3 (String y4 (String s1 (String m1 (String m2
      (String s2 (String d1 (String d2 EmptyString))))))))) =>
      is_digit y1 && is_digit y2 && is_digit y3 && is_digit y4 && Ascii.eqb s1 "-"
      && is_digit m1 && is_digit m2 && Ascii.eqb s2 "-" && is_digit d1 && is_digit d2
  | _ => false
  end.

(** An event that carries nothing but an identifier and a date. *)
Definition bare_event (id date : string) : Kaizen.event :=
  {| Kaizen.id := id; Kaizen.title := ""; Kaizen.site := ""; Kaizen.date := date;
     Kaizen.problem_background := ""; Kaizen.analysis_and_countermeasures := "";
     Kaizen.quantified_results := ""; Kaizen.key_insight := "" |}.

(** Two events whose dates are not zero-padded: the last day of
    September and the first day of October. *)
Definition unpadded_events : list Kaizen.event :=
  [bare_event "A" "2025-10-1"; bare_event "B" "2025-9-30"].

(** ** Runs on a substrate that accepts every call *)

(** [m] returns [a] and gets exactly [calls] displayed, after whatever was
    displayed before. *)
Definition yields {A} (m : M A) (a : A) (calls : trace) : Prop :=
  forall tr, m reliable tr = (Returned a, tr ++ calls).

(** A provider returns [v]: on every substrate and page it raises nothing,
    displays nothing and gives [v]. *)
Definition returns {A} (provider : M A) (v : A) : Prop :=
  forall tk tr, provider tk tr = (Returned v, tr).

(** A provider raises [e], before it displays anything. *)
Definition raises {A} (provider : M A) (e : exn) : Prop :=
  forall tk tr, provider tk tr = (Raised e, tr).

Definition is_tab_marker (c : ui_call) : bool :=
  match c with
  | Enter (CtxTab _) | Exit (CtxTab _) => true
  | _ => false
  end.

(** No tab is entered or left in these calls. *)
Definition tab_free (tr : trace) : Prop :=
  forallb (fun c => negb (is_tab_marker c)) tr = true.

(** The banner and the log entry of the [except] clause. *)
Definition error_banner (e : exn) : ui_call :=
  StError ("An error occurred while rendering the Kaizen & Training Hub: " +++ exn_str e).

Definition log_entry (e : exn) : ui_call :=
  LoggerError ("Failed to render kaizen and training hub: " +++ exn_str e) true.

(** The calls of the three panels, as the bodies of the tabs issue them. *)
Definition events_script (kaizen_events : list Kaizen.event) : trace :=
  events_tab_intro ++
  match kaizen_events with
  | [] => [StWarning "No Kaizen events have been logged in the data model."]
  | _ => flat_map (fun event => displayed (event_block event)) (event_rows kaizen_events)
  end.

Definition training_tab_intro : trace :=
  [StSubheader "Empowering Excellence Through Education";
   StMarkdown "A commitment to quality begins with a commitment to learning. This curated library provides resources to develop skills at every level of the organization, from foundational principles to advanced statistical methods." false].

Definition training_script (training_materials : list Training.material) : trace :=
  training_tab_intro ++
  match training_materials with
  | [] => [StWarning "No training materials are available in the data model."]
  | _ => map (fun material => StMarkdown (training_card material) true) training_materials
  end.

Definition glossary_tab_intro : trace :=
  [StSubheader "The Common Language of Continuous Improvement";
   StMarkdown "Use this dictionary to understand the key terms, concepts, and methodologies that form the foundation of our operational excellence program. A shared vocabulary is essential for effective collaboration and problem-solving." false].

Definition glossary_script (glossary : glossary_dict) : trace :=
  glossary_tab_intro ++
  flat_map (fun entry => displayed (glossary_category entry)) glossary.

(** What the page shows between its introduction and the first tab. *)
Definition page_tabs_intro : trace :=
  [StInfo "Select a tab to review the A3 reports from past Kaizen events or to access our curated library of quality and CI training." "🧠";
   StTabs ["🏆 **Kaizen Event A3 Log**"; "📚 **Training & Development Library**"; "📖 **Methodologies & Terminology Glossary**"]].

(** The whole page, when the providers give these three collections. *)
Definition page_script (kaizen_events : list Kaizen.event)
    (training_materials : list Training.material) (glossary : glossary_dict) : trace :=
  page_header :: page_intro :: page_tabs_intro ++
  Enter (CtxTab 0) :: events_script kaizen_events ++
  Exit (CtxTab 0) :: Enter (CtxTab 1) :: training_script training_materials ++
  Exit (CtxTab 1) :: Enter (CtxTab 2) :: glossary_script glossary ++
  [Exit (CtxTab 2)].

(** ** The collections of the module as written *)

(** What a provider gives on an empty page ([default] if it raises). *)
Definition value_of {A} (provider : M A) (default : A) : A :=
  match fst (provider reliable []) with
  | Returned v => v
  | Raised _ => default
  end.

Definition sample_events : list Kaizen.event :=
  value_of get_overhauled_kaizen_data [].

Definition sample_materials : list Training.material :=
  value_of get_overhauled_training_data [].

Definition sample_glossary : glossary_dict :=
  value_of get_glossary_content [].

(** The page of the module as written. *)
Definition hub_page : trace := displayed (render_kaizen_training_hub hub tt).

(** The module with all three providers replaced by ones that return
    empty collections. *)
Definition hub_with_nothing : module_globals :=
  {| kaizen_provider := ret [];
     training_provider := ret [];
     glossary_provider := ret [] |}.

(** The card of a material shows its title and its icon, and lists as
    many objectives as the material has. *)
Definition card_shows (material : Training.material) : bool :=
  let card := training_card material in
  contains (Training.title material) card
  && contains (Training.icon material) card
  && Nat.eqb (occurrences "<li>" card) (List.length (Training.learning_objectives material)).

(** Row [r] may stand before row [r'] when a frame is sorted ascending by
    [key]. *)
Definition row_le {A} (key : A -> string) (r r' : nat * A) : Prop :=
  str_le (key (snd r)) (key (snd r')) = true.

(** ** Runs on any substrate *)

Definition ctx_eqb (a b : ctx) : bool :=
  match a, b with
  | CtxTab i, CtxTab j => Nat.eqb i j
  | CtxContainer, CtxContainer => true
  | CtxColumn i, CtxColumn j => Nat.eqb i j
  | CtxExpander l, CtxExpander l' => String.eqb l l'
  | _, _ => false
  end.

Definition is_marker (c : ui_call) : bool :=
  match c with Enter _ | Exit _ => true | _ => false end.

Definition is_exit (c : ui_call) : bool :=
  match c with Exit _ => true | _ => false end.

(** What stays of a trace when the marks of leaving a block are dropped:
    the calls and the blocks they were made in. *)
Definition visible (tr : trace) : trace := filter (fun c => negb (is_exit c)) tr.

(** The blocks still open after [tr], innermost first, when [stack] were
    open before it; [None] when [tr] leaves a block that is not the
    innermost open one. *)
Fixpoint closes (stack : list ctx) (tr : trace) : option (list ctx) :=
  match tr with
  | [] => Some stack
  | Enter c :: tr' => closes (c :: stack) tr'
  | Exit c :: tr' =>
      match stack with
      | c' :: stack' => if ctx_eqb c c' then closes stack' tr' else None
      | [] => None
      end
  | _ :: tr' => closes stack tr'
  end.

(** Every block entered in [tr] is left in it, innermost first. *)
Definition well_nested (tr : trace) : Prop := closes [] tr = Some [].

(** [m] is page code whose complete output is [script] and whose value
    is [a]: on any substrate it appends to the page; what it appends
    leaves the open blocks as they were; when it returns it has appended
    exactly [script]; and when it raises [e], the substrate raised [e] on
    a call [c], and what was appended is, marks of leaving apart, the
    part of [script] before [c]. *)
Definition conforms {A} (m : M A) (a : A) (script : trace) : Prop :=
  forall (tk : toolkit) (tr : trace),
  exists added,
    snd (m tk tr) = tr ++ added /\
    (forall stack, closes stack added = Some stack) /\
    match fst (m tk tr) with
    | Returned v => v = a /\ added = script
    | Raised e =>
        exists c rest before,
          visible script = visible added ++ c :: rest /\ tk before c = Some e
    end.

(** The calls of the [try] block, when the providers give these three
    collections. *)
Definition body_script (kaizen_events : list Kaizen.event)
    (training_materials : list Training.material) (glossary : glossary_dict) : trace :=
  page_tabs_intro ++
  Enter (CtxTab 0) :: events_script kaizen_events ++
  Exit (CtxTab 0) :: Enter (CtxTab 1) :: training_script training_materials ++
  Exit (CtxTab 1) :: Enter (CtxTab 2) :: glossary_script glossary ++
  [Exit (CtxTab 2)].

(** The calls of the page proper: neither an error banner nor a log
    entry. *)
Definition is_content (c : ui_call) : bool :=
  negb (is_error_banner c) && negb (is_log_entry c).

(** [m] appends to the page and leaves the open blocks as they were, on
    any substrate and whether it returns or raises. *)
Definition neutral {A} (m : M A) : Prop :=
  forall (tk : toolkit) (tr : trace),
  exists added,
    snd (m tk tr) = tr ++ added /\ forall stack, closes stack added = Some stack.

(** A provider that displays nothing, whether it returns or raises. *)
Definition quiet {A} (provider : M A) : Prop :=
  forall (tk : toolkit) (tr : trace), snd (provider tk tr) = tr.

(** A button is the disabled primary button of a report. *)
Definition is_report_button (c : ui_call) : bool :=
  match c with
  | StButton label _ type disabled _ _ =>
      String.eqb label "View Full A3 Report" && String.eqb type "primary" && disabled
  | _ => true
  end.

Definition formula_failure : exn :=
  {| exn_class := "ValueError"; exn_str := "formula cannot be parsed" |}.

(** A substrate that cannot render formulas. *)
Definition rejects_latex : toolkit :=
  fun _ c => match c with StLatex _ => Some formula_failure | _ => None end.

(** The module with the training provider, or the glossary provider,
    replaced by one that raises. *)
Definition hub_with_failing_training : module_globals :=
  {| kaizen_provider := get_overhauled_kaizen_data;
     training_provider := raise provider_failure;
     glossary_provider := get_glossary_content |}.

Definition hub_with_failing_glossary : module_globals :=
  {| kaizen_provider := get_overhauled_kaizen_data;
     training_provider := get_overhauled_training_data;
     glossary_provider := raise provider_failure |}.

(** What the page may hold of a call: no button but the disabled primary
    report button of one of the events. *)
Definition button_ok (kaizen_events : list Kaizen.event) (c : ui_call) : Prop :=
  match c with
  | StButton label key type disabled _ _ =>
      label = "View Full A3 Report" /\ type = "primary" /\ disabled = true /\
      exists event, In event kaizen_events /\ key = report_key event
  | _ => True
  end.

(** ** Text inside the card markup *)

(** No [<] of [s] starts what could be read as a list item: each one is
    followed, inside [s], by a character other than [l]. *)
Fixpoint no_item_start (s : string) : bool :=
  match s with
  | EmptyString => true
  | String a s' =>
      (if Ascii.eqb a "<"
       then match s' with
            | EmptyString => false
            | String b _ => negb (Ascii.eqb b "l")
            end
       else true)
      && no_item_start s'
  end.

(** None of the text fields of a material starts a list item. *)
Definition plain_material (material : Training.material) : bool :=
  no_item_start (Training.icon material)
  && no_item_start (Training.title material)
  && no_item_start (Training.type material)
  && no_item_start (Training.target_audience material)
  && no_item_start (Training.description material)
  && forallb no_item_start (Training.learning_objectives material)
  && no_item_start (Training.recommended_reading material)
  && no_item_start (Training.link material).

(** The list item of one objective, [f"<li>{obj}</li>"]. *)
Definition list_item (obj : string) : string := "<li>" +++ obj +++ "</li>".

Definition blank_material : Training.material :=
  {| Training.id := ""; Training.title := ""; Training.type := "";
     Training.duration_hr := 0; Training.target_audience := ""; Training.link := "";
     Training.icon := ""; Training.description := "";
     Training.learning_objectives := []; Training.recommended_reading := "" |}.

(** The first material of the catalog of the module, TRN-101. *)
Definition first_material : Training.material := hd blank_material sample_materials.

(** A material whose title carries markup of its own. *)
Definition marked_up_material : Training.material :=
  {| Training.id := "TRN-X"; Training.title := "<li>Injected</li>"; Training.type := "PDF Guide";
     Training.duration_hr := 10; Training.target_audience := "All"; Training.link := "#";
     Training.icon := "!"; Training.description := "None";
     Training.learning_objectives := ["One"]; Training.recommended_reading := "None" |}.

Definition banner_failure : exn :=
  {| exn_class := "RuntimeError"; exn_str := "banner cannot be shown" |}.

(** A substrate that cannot show error banners. *)
Definition rejects_banners : toolkit :=
  fun _ c => match c with StError _ => Some banner_failure | _ => None end.

(** ** The providers on the object store *)

(** For the page the three collections are values: the renderer reads
    them and writes to none of them.  What a provider does to the objects
    of the interpreter is seen one level below, where a list or a
    dictionary is an object in a store and a value refers to it by its
    address. *)
Definition addr := nat.

Inductive value :=
| PyStr (s : string)
| PyFloat (x : tenths)
| PyRef (a : addr).

Inductive object :=
| PyList (items : list value)
| PyDict (entries : list (string * value)).

(** The store: the object at address [a] is the [a]-th one.  A mutation
    replaces the object at an address; objects are not freed. *)
Definition heap := list object.

(** Code that reads and extends the store. *)
Definition store (A : Type) := heap -> A * heap.

(** A new object, at the first free address. *)
Definition alloc (o : object) : store value :=
  fun h => (PyRef (List.length h), h ++ [o]).

(** A string or number literal: no object of the store is involved. *)
Definition literal (v : value) : store value := fun h => (v, h).

Definition str (s : string) : store value := literal (PyStr s).

(** The items of a display are evaluated from left to right. *)
Fixpoint eval_all (items : list (store value)) : store (list value) :=
  fun h =>
    match items with
    | [] => ([], h)
    | item :: items' =>
        let (v, h1) := item h in
        let (vs, h2) := eval_all items' h1 in
        (v :: vs, h2)
    end.

Fixpoint eval_entries (entries : list (string * store value))
    : store (list (string * value)) :=
  fun h =>
    match entries with
    | [] => ([], h)
    | (key, item) :: entries' =>
        let (v, h1) := item h in
        let (vs, h2) := eval_entries entries' h1 in
        ((key, v) :: vs, h2)
    end.

(** A list display [[a, b, ...]] and a dictionary display
    [{k: a, ...}]: the items are evaluated, then the new object is made.
    The keys of every display of the module are pairwise distinct, so no
    entry replaces an earlier one. *)
Definition list_display (items : list (store value)) : store value :=
  fun h => let (vs, h') := eval_all items h in alloc (PyList vs) h'.

Definition dict_display (entries : list (string * store value)) : store value :=
  fun h => let (vs, h') := eval_entries entries h in alloc (PyDict vs) h'.

(** The three providers, as the displays they return. *)
Module Store.
Definition event_display (event : Kaizen.event) : store value :=
  dict_display
    [("id", str (Kaizen.id event));
     ("title", str (Kaizen.title event));
     ("site", str (Kaizen.site event));
     ("date", str (Kaizen.date event));
     ("problem_background", str (Kaizen.problem_background event));
     ("analysis_and_countermeasures", str (Kaizen.analysis_and_countermeasures event));
     ("quantified_results", str (Kaizen.quantified_results event));
     ("key_insight", str (Kaizen.key_insight event))].

Definition get_overhauled_kaizen_data : store value :=
  list_display (map event_display sample_events).

Definition material_display (material : Training.material) : store value :=
  dict_display
    [("id", str (Training.id material));
     ("title", str (Training.title material));
     ("type", str (Training.type material));
     ("duration_hr", literal (PyFloat (Training.duration_hr material)));
     ("target_audience", str (Training.target_audience material));
     ("link", str (Training.link material));
     ("icon", str (Training.icon material));
     ("description", str (Training.description material));
     ("learning_objectives",
      list_display (map str (Training.learning_objectives material)));
     ("recommended_reading", str (Training.recommended_reading material))].

Definition get_overhauled_training_data : store value :=
  list_display (map material_display sample_materials).

Definition term_display (item : Glossary.item) : store value :=
  dict_display
    (("term", str (Glossary.term item))
     :: ("definition", str (Glossary.definition item))
     :: match Glossary.formula item with
        | Some formula => [("formula", str formula)]
        | None => []
        end).

Definition category_display (entry : string * list Glossary.item)
    : string * store value :=
  (fst entry, list_display (map term_display (snd entry))).

Definition get_glossary_content : store value :=
  dict_display (map category_display sample_glossary).
End Store.

(** *** The structure behind a value *)

(** What a value looks like when every reference in it is followed:
    this is what [==] compares on lists and dictionaries. *)
Unset Elimination Schemes.
Inductive tree :=
| TStr (s : string)
| TFloat (x : tenths)
| TList (items : list tree)
| TDict (entries : list (string * tree)).
Set Elimination Schemes.

Fixpoint all_some {A} (l : list (option A)) : option (list A) :=
  match l with
  | [] => Some []
  | None :: _ => None
  | Some x :: l' => option_map (cons x) (all_some l')
  end.

(** The structure of [v] in the store [h], following references at most
    [fuel] levels deep. *)
Fixpoint structure (fuel : nat) (h : heap) (v : value) : option tree :=
  match v with
  | PyStr s => Some (TStr s)
  | PyFloat x => Some (TFloat x)
  | PyRef a =>
      match fuel with
      | 0 => None
      | S fuel' =>
          match nth_error h a with
          | Some (PyList items) =>
              option_map TList (all_some (map (structure fuel' h) items))
          | Some (PyDict entries) =>
              option_map TDict
                (all_some (map (fun entry =>
                                  option_map (pair (fst entry))
                                             (structure fuel' h (snd entry)))
                               entries))
          | None => None
          end
      end
  end.

(** The structures of the three collections. *)
Definition event_tree (event : Kaizen.event) : tree :=
  TDict
    [("id", TStr (Kaizen.id event));
     ("title", TStr (Kaizen.title event));
     ("site", TStr (Kaizen.site event));
     ("date", TStr (Kaizen.date event));
     ("problem_background", TStr (Kaizen.problem_background event));
     ("analysis_and_countermeasures", TStr (Kaizen.analysis_and_countermeasures event));
     ("quantified_results", TStr (Kaizen.quantified_results event));
     ("key_insight", TStr (Kaizen.key_insight event))].

Definition events_tree (events : list Kaizen.event) : tree :=
  TList (map event_tree events).

Definition material_tree (material : Training.material) : tree :=
  TDict
    [("id", TStr (Training.id material));
     ("title", TStr (Training.title material));
     ("type", TStr (Training.type material));
     ("duration_hr", TFloat (Training.duration_hr material));
     ("target_audience", TStr (Training.target_audience material));
     ("link", TStr (Training.link material));
     ("icon", TStr (Training.icon material));
     ("description", TStr (Training.description material));
     ("learning_objectives", TList (map TStr (Training.learning_objectives material)));
     ("recommended_reading", TStr (Training.recommended_reading material))].

Definition materials_tree (materials : list Training.material) : tree :=
  TList (map material_tree materials).

Definition term_tree (item : Glossary.item) : tree :=
  TDict
    (("term", TStr (Glossary.term item))
     :: ("definition", TStr (Glossary.definition item))
     :: match Glossary.formula item with
        | Some formula => [("formula", TStr formula)]
        | None => []
        end).

Definition category_tree (entry : string * list Glossary.item) : string * tree :=
  (fst entry, TList (map term_tree (snd entry))).

Definition glossary_tree (glossary : glossary_dict) : tree :=
  TDict (map category_tree glossary).

(** [m] makes a value whose structure is [t], [depth] levels deep: it
    only adds objects to the store, and the structure of its value is [t]
    whatever the objects that were there before have become and whatever
    is added afterwards. *)
Definition builds (m : store value) (t : tree) (depth : nat) : Prop :=
  forall h, exists new,
    snd (m h) = h ++ new /\
    forall older newer fuel,
      List.length older = List.length h -> depth <= fuel ->
      structure fuel (older ++ new ++ newer) (fst (m h)) = Some t.

(** Two successive calls of [provider] from the store [h]: both results
    have the structure [t]; each call only adds objects to the store; the
    second result keeps its structure when the objects that were there
    before the second call, the first result among them, are changed at
    will; and the first result keeps its structure when the objects made
    by the second call are changed at will. *)
Definition independent_calls (provider : store value) (t : tree) (fuel : nat)
    (h : heap) : Prop :=
  let (r1, h1) := provider h in
  let (r2, h2) := provider h1 in
  structure fuel h2 r1 = Some t /\
  structure fuel h2 r2 = Some t /\
  r1 <> r2 /\
  exists new1 new2,
    h1 = h ++ new1 /\ h2 = h1 ++ new2 /\
    (forall changed, List.length changed = List.length h1 ->
                     structure fuel (changed ++ new2) r2 = Some t) /\
    (forall changed, structure fuel (h1 ++ changed) r1 = Some t).

(** [m] returns a reference to an object that it has made itself. *)
Definition makes_object (m : store value) : Prop :=
  forall h, exists a,
    fst (m h) = PyRef a /\
    List.length h <= a /\ a < List.length (snd (m h)).

(** Two events of the same day, with different identifiers. *)
Definition same_day_events : list Kaizen.event :=
  [bare_event "A" "2025-07-01"; bare_event "B" "2025-07-01"].

(** * Properties *)

(** ** Runs on a substrate that accepts every call *)

Lemma yields_ret {A} (a : A) : yields (ret a) a [].
Proof. intro tr. unfold ret. now rewrite app_nil_r. Qed.

Lemma yields_issue (c : ui_call) : yields (issue c) tt [c].
Proof. intro tr. reflexivity. Qed.

Lemma yields_bind {A B} (m : M A) (k : A -> M B) a b c1 c2 :
  yields m a c1 -> yields (k a) b c2 -> yields (bind m k) b (c1 ++ c2).
Proof.
  intros Hm Hk tr. unfold bind. rewrite Hm, Hk. now rewrite app_assoc.
Qed.

Lemma yields_with {A} (x : ctx) (body : M A) a c :
  yields body a c -> yields (with_ x body) a (Enter x :: c ++ [Exit x]).
Proof.
  intros Hb tr. unfold with_. rewrite Hb.
  f_equal. rewrite <- !app_assoc. reflexivity.
Qed.

Lemma yields_for_each {A} (body : A -> M unit) (calls : A -> trace) (l : list A) :
  (forall x, yields (body x) tt (calls x)) ->
  yields (for_each l body) tt (flat_map calls l).
Proof.
  intro Hbody. induction l as [|x l IH]; simpl.
  - apply yields_ret.
  - eapply yields_bind; [apply Hbody | exact IH].
Qed.

Lemma yields_displayed (m : M unit) c : yields m tt c -> displayed m = c.
Proof. intro H. unfold displayed. now rewrite H. Qed.

(** A piece of straight-line page code yields what it displays. *)
Ltac straight_line :=
  let tr := fresh "tr" in
  intro tr; unfold displayed; cbn; rewrite <- ?app_assoc; reflexivity.

Lemma event_block_yields (event : Kaizen.event) :
  yields (event_block event) tt (displayed (event_block event)).
Proof. straight_line. Qed.

Lemma glossary_item_yields (item : Glossary.item) :
  yields (glossary_item item) tt (displayed (glossary_item item)).
Proof. destruct item as [t d [f|]]; straight_line. Qed.

Lemma yields_seq {A B} (m : M A) (k : A -> M B) a b c1 c2 c :
  yields m a c1 -> yields (k a) b c2 -> c = c1 ++ c2 -> yields (bind m k) b c.
Proof. intros Hm Hk ->. eapply yields_bind; eassumption. Qed.

Lemma expander_yields (label : string) (expanded : bool) :
  yields (st.expander label expanded) (CtxExpander label) [StExpander label expanded].
Proof. intro tr. reflexivity. Qed.

Lemma glossary_category_yields (entry : string * list Glossary.item) :
  yields (glossary_category entry) tt (displayed (glossary_category entry)).
Proof.
  assert (H : exists c, yields (glossary_category entry) tt c).
  { destruct entry as [category terms]. eexists. unfold glossary_category.
    eapply yields_seq; [apply expander_yields | | reflexivity].
    apply yields_with, yields_for_each, glossary_item_yields. }
  destruct H as [c H]. now rewrite (yields_displayed H).
Qed.

Lemma glossary_category_displayed (category : string) (terms : list Glossary.item) :
  displayed (glossary_category (category, terms)) =
  StExpander ("**" +++ category +++ "**") (String.eqb category "Lean Principles")
  :: Enter (CtxExpander ("**" +++ category +++ "**"))
  :: flat_map (fun item => displayed (glossary_item item)) terms
  ++ [Exit (CtxExpander ("**" +++ category +++ "**"))].
Proof.
  apply yields_displayed. unfold glossary_category.
  eapply yields_seq; [apply expander_yields | | reflexivity].
  apply yields_with, yields_for_each, glossary_item_yields.
Qed.

Lemma glossary_tab_body_yields (glossary : glossary_dict) :
  yields (glossary_tab_body glossary) tt (glossary_script glossary).
Proof.
  unfold glossary_tab_body, glossary_script, items.
  eapply yields_seq; [apply yields_issue | | reflexivity].
  eapply yields_seq; [apply yields_issue | | reflexivity].
  apply yields_for_each, glossary_category_yields.
Qed.

Lemma snd_from_records {A} (records : list A) :
  map snd (pd.from_records records) = records.
Proof.
  unfold pd.from_records. generalize 0.
  induction records as [|r l IH]; intro n; simpl; [reflexivity|].
  now rewrite IH.
Qed.

Lemma for_each_rows_yields {A} (body : A -> M unit) (calls : A -> trace)
    (rows : list (nat * A)) :
  (forall x, yields (body x) tt (calls x)) ->
  yields (for_each rows (fun '(_, x) => body x)) tt (flat_map calls (map snd rows)).
Proof.
  intro Hbody. induction rows as [|[i r] rows IH]; [apply yields_ret|].
  simpl. eapply yields_seq; [apply Hbody | exact IH | reflexivity].
Qed.

Lemma flat_map_singleton {A B} (f : A -> B) (l : list A) :
  flat_map (fun x => [f x]) l = map f l.
Proof. induction l as [|x l IH]; simpl; [reflexivity | now rewrite IH]. Qed.

Lemma training_tab_body_yields (training_materials : list Training.material) :
  yields (training_tab_body training_materials) tt (training_script training_materials).
Proof.
  unfold training_tab_body, training_script.
  eapply yields_seq; [apply yields_issue | | reflexivity].
  eapply yields_seq; [apply yields_issue | | reflexivity].
  destruct training_materials as [|m l]; [apply yields_issue|].
  set (records := m :: l). unfold pd.iterrows.
  rewrite <- flat_map_singleton.
  rewrite <- (snd_from_records records) at 2.
  apply for_each_rows_yields with (body := fun material => st.markdown_html (training_card material)).
  intro x. apply yields_issue.
Qed.

Lemma events_tab_body_yields (kaizen_events : list Kaizen.event) :
  yields (events_tab_body kaizen_events) tt (events_script kaizen_events).
Proof.
  unfold events_tab_body, events_script.
  eapply yields_seq; [apply yields_issue | | reflexivity].
  eapply yields_seq; [apply yields_issue | | reflexivity].
  destruct kaizen_events as [|e l]; [apply yields_issue|].
  unfold event_rows.
  apply for_each_rows_yields with (body := event_block), event_block_yields.
Qed.

Lemma returns_yields {A} (provider : M A) (v : A) :
  returns provider v -> yields provider v [].
Proof. intros H tr. rewrite H. now rewrite app_nil_r. Qed.

Lemma tabs_yields (labels : list string) :
  yields (st.tabs labels) (map CtxTab (seq 0 (List.length labels))) [StTabs labels].
Proof. intro tr. reflexivity. Qed.

Lemma page_body_yields (g : module_globals) evs mats gls :
  returns (kaizen_provider g) evs ->
  returns (training_provider g) mats ->
  returns (glossary_provider g) gls ->
  yields (page_body g) tt
         (page_tabs_intro ++
          Enter (CtxTab 0) :: events_script evs ++
          Exit (CtxTab 0) :: Enter (CtxTab 1) :: training_script mats ++
          Exit (CtxTab 1) :: Enter (CtxTab 2) :: glossary_script gls ++
          [Exit (CtxTab 2)]).
Proof.
  intros Hev Hmat Hgl. unfold page_body.
  eapply yields_seq; [apply returns_yields, Hev | | reflexivity].
  eapply yields_seq; [apply returns_yields, Hmat | | reflexivity].
  eapply yields_seq; [apply returns_yields, Hgl | | reflexivity].
  eapply yields_seq; [apply yields_issue | | reflexivity].
  eapply yields_seq; [apply tabs_yields | | reflexivity].
  cbn [List.length seq map unpack3].
  eapply yields_seq; [apply yields_ret | | reflexivity].
  cbn beta iota zeta.
  eapply yields_seq; [apply yields_with, events_tab_body_yields | | ].
  eapply yields_seq; [apply yields_with, training_tab_body_yields | | reflexivity].
  apply yields_with, glossary_tab_body_yields.
  cbn [app]. rewrite <- !app_assoc. reflexivity.
Qed.

Lemma page_displayed {SSM} (g : module_globals) (ssm : SSM) evs mats gls :
  returns (kaizen_provider g) evs ->
  returns (training_provider g) mats ->
  returns (glossary_provider g) gls ->
  render_kaizen_training_hub g ssm reliable [] = (Returned tt, page_script evs mats gls).
Proof.
  intros Hev Hmat Hgl.
  unfold render_kaizen_training_hub, bind, issue, try_except. cbn [reliable app].
  rewrite (@page_body_yields g evs mats gls Hev Hmat Hgl). reflexivity.
Qed.

(** ** The panels of a displayed page *)

Lemma tab_free_app (a b : trace) : tab_free a -> tab_free b -> tab_free (a ++ b).
Proof.
  unfold tab_free. intros Ha Hb. rewrite forallb_app, Ha, Hb. reflexivity.
Qed.

Lemma tab_free_flat_map {A} (f : A -> trace) (l : list A) :
  (forall x, tab_free (f x)) -> tab_free (flat_map f l).
Proof.
  intro Hf. induction l as [|x l IH]; [reflexivity|].
  simpl. apply tab_free_app; [apply Hf | exact IH].
Qed.

Lemma tab_free_event_block (event : Kaizen.event) :
  tab_free (displayed (event_block event)).
Proof. reflexivity. Qed.

Lemma tab_free_glossary_item (item : Glossary.item) :
  tab_free (displayed (glossary_item item)).
Proof. destruct item as [t d [f|]]; reflexivity. Qed.

Lemma tab_free_glossary_category (entry : string * list Glossary.item) :
  tab_free (displayed (glossary_category entry)).
Proof.
  destruct entry as [category terms]. rewrite glossary_category_displayed.
  change (tab_free (flat_map (fun item => displayed (glossary_item item)) terms
                    ++ [Exit (CtxExpander ("**" +++ category +++ "**"))])).
  apply tab_free_app; [|reflexivity].
  apply tab_free_flat_map, tab_free_glossary_item.
Qed.

Lemma tab_free_events_script evs : tab_free (events_script evs).
Proof.
  unfold events_script. apply tab_free_app; [reflexivity|].
  destruct evs; [reflexivity|].
  apply tab_free_flat_map, tab_free_event_block.
Qed.

Lemma tab_free_training_script mats : tab_free (training_script mats).
Proof.
  unfold training_script. apply tab_free_app; [reflexivity|].
  destruct mats; [reflexivity|].
  rewrite <- flat_map_singleton. apply tab_free_flat_map. reflexivity.
Qed.

Lemma tab_free_glossary_script gls : tab_free (glossary_script gls).
Proof.
  unfold glossary_script. apply tab_free_app; [reflexivity|].
  apply tab_free_flat_map, tab_free_glossary_category.
Qed.

Lemma until_exit_tab_body (i : nat) (body rest : trace) :
  tab_free body -> until_exit_tab i (body ++ Exit (CtxTab i) :: rest) = body.
Proof.
  unfold tab_free. induction body as [|c body IH]; simpl; intro H.
  - now rewrite Nat.eqb_refl.
  - apply andb_prop in H. destruct H as [Hc H].
    destruct c as [| | | | | | | | | | | | | | | [] | [] |]; simpl in *;
      try discriminate; now rewrite IH.
Qed.

Lemma panel_skip (i : nat) (pre rest : trace) :
  forallb (fun c => negb (is_enter_tab i c)) pre = true ->
  panel i (pre ++ rest) = panel i rest.
Proof.
  induction pre as [|c pre IH]; simpl; intro H; [reflexivity|].
  apply andb_prop in H. destruct H as [Hc H].
  apply negb_true_iff in Hc. rewrite Hc. now apply IH.
Qed.

Lemma tab_free_no_enter (i : nat) (tr : trace) :
  tab_free tr -> forallb (fun c => negb (is_enter_tab i c)) tr = true.
Proof.
  unfold tab_free. induction tr as [|c tr IH]; simpl; intro H; [reflexivity|].
  apply andb_prop in H. destruct H as [Hc H]. rewrite (IH H), andb_true_r.
  destruct c as [| | | | | | | | | | | | | | | [] | [] |]; simpl in *;
    try discriminate; reflexivity.
Qed.

(** The three panels of the page are what the bodies of the tabs issue. *)
Lemma page_panels evs mats gls :
  panel 0 (page_script evs mats gls) = events_script evs /\
  panel 1 (page_script evs mats gls) = training_script mats /\
  panel 2 (page_script evs mats gls) = glossary_script gls.
Proof.
  unfold page_script. repeat split.
  - cbn [page_tabs_intro app panel is_enter_tab page_header page_intro Nat.eqb].
    apply until_exit_tab_body, tab_free_events_script.
  - cbn [page_tabs_intro app panel is_enter_tab page_header page_intro Nat.eqb].
    rewrite panel_skip by apply tab_free_no_enter, tab_free_events_script.
    cbn [panel is_enter_tab Nat.eqb].
    apply until_exit_tab_body, tab_free_training_script.
  - cbn [page_tabs_intro app panel is_enter_tab page_header page_intro Nat.eqb].
    rewrite panel_skip by apply tab_free_no_enter, tab_free_events_script.
    cbn [panel is_enter_tab Nat.eqb].
    rewrite panel_skip by apply tab_free_no_enter, tab_free_training_script.
    cbn [panel is_enter_tab Nat.eqb].
    rewrite <- (app_nil_r [Exit (CtxTab 2)]).
    change ([Exit (CtxTab 2)] ++ []) with (Exit (CtxTab 2) :: []).
    apply until_exit_tab_body, tab_free_glossary_script.
Qed.

(** ** The providers *)

Lemma kaizen_provider_returns : returns get_overhauled_kaizen_data sample_events.
Proof. intros tk tr. reflexivity. Qed.

Lemma training_provider_returns : returns get_overhauled_training_data sample_materials.
Proof. intros tk tr. reflexivity. Qed.

Lemma glossary_provider_returns : returns get_glossary_content sample_glossary.
Proof. intros tk tr. reflexivity. Qed.

Lemma hub_page_script :
  hub_page = page_script sample_events sample_materials sample_glossary.
Proof.
  unfold hub_page, displayed.
  rewrite (@page_displayed unit hub tt sample_events sample_materials sample_glossary
             kaizen_provider_returns training_provider_returns glossary_provider_returns).
  reflexivity.
Qed.

(** ** Error containment *)

(** C1, counterexample: on a substrate that cannot show a header, the
    renderer of the module as written raises to its caller, and nothing
    is displayed or logged. *)
Lemma header_failure_escapes :
  render_kaizen_training_hub hub tt rejects_header [] = (Raised display_down, []).
Proof. reflexivity. Qed.

(** C1, amended: the header and the introduction are issued before the
    [try].  When the substrate accepts these two calls, and accepts error
    banners and log entries, the renderer returns normally whatever the
    providers and the other display calls do; if the [try] block raised
    [e], the page ends with the banner and the log entry that embed
    [str(e)], and otherwise with what the block displayed. *)
Theorem failures_inside_try_are_contained {SSM : Type}
    (tk : toolkit) (g : module_globals) (ssm : SSM)
    (Hheader : accepts tk page_header)
    (Hintro : accepts tk page_intro)
    (Hbanner : forall body, accepts tk (StError body))
    (Hlog : forall msg exc_info, accepts tk (LoggerError msg exc_info)) :
  exists tr,
    render_kaizen_training_hub g ssm tk [] = (Returned tt, tr) /\
    match page_body g tk [page_header; page_intro] with
    | (Returned _, shown) => tr = shown
    | (Raised e, shown) => tr = shown ++ [error_banner e; log_entry e]
    end.
Proof.
  unfold render_kaizen_training_hub, bind, issue, try_except.
  rewrite Hheader. cbn [app]. rewrite Hintro. cbn [app].
  destruct (page_body g tk [page_header; page_intro]) as [[[]|e] shown].
  - eexists. split; reflexivity.
  - unfold page_handler, st.error, logger.error, bind, issue.
    rewrite Hbanner, Hlog. eexists. split; [reflexivity|].
    rewrite <- app_assoc. reflexivity.
Qed.

(** The theorem at the module whose event provider raises, on the
    substrate that accepts every call. *)
Lemma failures_inside_try_are_contained_witness :
  exists tr,
    render_kaizen_training_hub hub_with_failing_events tt reliable [] = (Returned tt, tr) /\
    match page_body hub_with_failing_events reliable [page_header; page_intro] with
    | (Returned _, shown) => tr = shown
    | (Raised e, shown) => tr = shown ++ [error_banner e; log_entry e]
    end.
Proof.
  apply (@failures_inside_try_are_contained unit reliable hub_with_failing_events tt);
    intros; intro; reflexivity.
Defined.

(** C4: if the event provider raises [e], and the substrate accepts the
    header, the introduction, the error banner and the log entry, the
    renderer returns normally; the page is the header, the introduction
    and one error banner, and one log entry is written. *)
Theorem provider_failure_is_contained {SSM : Type}
    (tk : toolkit) (g : module_globals) (ssm : SSM) (e : exn)
    (Hraises : raises (kaizen_provider g) e)
    (Hheader : accepts tk page_header)
    (Hintro : accepts tk page_intro)
    (Hbanner : accepts tk (error_banner e))
    (Hlog : accepts tk (log_entry e)) :
  let run := render_kaizen_training_hub g ssm tk [] in
  run = (Returned tt, [page_header; page_intro; error_banner e; log_entry e]) /\
  count is_error_banner (snd run) = 1 /\
  count is_log_entry (snd run) = 1.
Proof.
  assert (H : render_kaizen_training_hub g ssm tk []
              = (Returned tt, [page_header; page_intro; error_banner e; log_entry e])).
  { unfold render_kaizen_training_hub, bind, issue, try_except.
    rewrite Hheader. cbn [app]. rewrite Hintro. cbn [app].
    unfold page_body, bind. rewrite Hraises.
    unfold page_handler, st.error, logger.error, bind, issue.
    fold (error_banner e). fold (log_entry e).
    rewrite Hbanner, Hlog. reflexivity. }
  cbv zeta. rewrite H. repeat split.
Qed.

(** The theorem at the module whose event provider raises, on the
    substrate that accepts every call. *)
Lemma provider_failure_is_contained_witness :
  let run := render_kaizen_training_hub hub_with_failing_events tt reliable [] in
  run = (Returned tt, [page_header; page_intro;
                       error_banner provider_failure; log_entry provider_failure]) /\
  count is_error_banner (snd run) = 1 /\
  count is_log_entry (snd run) = 1.
Proof.
  apply (@provider_failure_is_contained unit reliable hub_with_failing_events tt
           provider_failure); intro; reflexivity.
Defined.

(** ** Empty collections *)

(** C2, counterexample: with a glossary provider that returns an empty
    mapping the page renders, and its Glossary panel is the subheader and
    the introduction only: no warning is displayed. *)
Lemma empty_glossary_shows_no_warning :
  let run := render_kaizen_training_hub hub_with_empty_glossary tt reliable [] in
  fst run = Returned tt /\
  panel 2 (snd run) = glossary_tab_intro /\
  count is_warning (panel 2 (snd run)) = 0.
Proof. vm_compute. repeat split. Qed.

(** C2, amended: when the event provider returns an empty list, the Event
    Log panel is its two opening lines and one warning, with no event
    block; likewise the Training Library panel, with no card.  When the
    glossary provider returns an empty mapping, the Glossary panel is its
    two opening lines: no section, and no warning either. *)
Theorem empty_collection_panels
    (g : module_globals) (evs : list Kaizen.event)
    (mats : list Training.material) (gls : glossary_dict)
    (Hev : returns (kaizen_provider g) evs)
    (Hmat : returns (training_provider g) mats)
    (Hgl : returns (glossary_provider g) gls) :
  let page := displayed (render_kaizen_training_hub g tt) in
  (evs = [] ->
     panel 0 page = events_tab_intro
                    ++ [StWarning "No Kaizen events have been logged in the data model."] /\
     count is_warning (panel 0 page) = 1 /\
     count is_event_block (panel 0 page) = 0) /\
  (mats = [] ->
     panel 1 page = training_tab_intro
                    ++ [StWarning "No training materials are available in the data model."] /\
     count is_warning (panel 1 page) = 1 /\
     count is_card (panel 1 page) = 0) /\
  (gls = [] ->
     panel 2 page = glossary_tab_intro /\
     count is_warning (panel 2 page) = 0 /\
     count is_section (panel 2 page) = 0).
Proof.
  cbv zeta. unfold displayed.
  rewrite (@page_displayed unit g tt evs mats gls Hev Hmat Hgl). cbn [snd].
  destruct (page_panels evs mats gls) as (P0 & P1 & P2).
  rewrite P0, P1, P2.
  repeat split; subst; reflexivity.
Qed.

(** The theorem at the module whose three providers return empty
    collections. *)
Lemma empty_collection_panels_witness :
  let page := displayed (render_kaizen_training_hub hub_with_nothing tt) in
  (@nil Kaizen.event = [] ->
     panel 0 page = events_tab_intro
                    ++ [StWarning "No Kaizen events have been logged in the data model."] /\
     count is_warning (panel 0 page) = 1 /\
     count is_event_block (panel 0 page) = 0) /\
  (@nil Training.material = [] ->
     panel 1 page = training_tab_intro
                    ++ [StWarning "No training materials are available in the data model."] /\
     count is_warning (panel 1 page) = 1 /\
     count is_card (panel 1 page) = 0) /\
  (@nil (string * list Glossary.item) = [] ->
     panel 2 page = glossary_tab_intro /\
     count is_warning (panel 2 page) = 0 /\
     count is_section (panel 2 page) = 0).
Proof.
  apply (@empty_collection_panels hub_with_nothing [] [] []); intros tk tr; reflexivity.
Defined.

(** ** Observations distribute over the calls *)

Lemma flat_map_flat_map {A B C} (f : B -> list C) (g : A -> list B) (l : list A) :
  flat_map f (flat_map g l) = flat_map (fun x => flat_map f (g x)) l.
Proof.
  induction l as [|x l IH]; simpl; [reflexivity|].
  now rewrite flat_map_app, IH.
Qed.

Lemma flat_map_nil {A B} (f : A -> list B) (l : list A) :
  (forall x, f x = []) -> flat_map f l = [].
Proof.
  intro H. induction l as [|x l IH]; simpl; [reflexivity|]. now rewrite H, IH.
Qed.

Lemma flat_map_ext_all {A B} (f g : A -> list B) (l : list A) :
  (forall x, f x = g x) -> flat_map f l = flat_map g l.
Proof.
  intro H. induction l as [|x l IH]; simpl; [reflexivity|]. now rewrite H, IH.
Qed.

(** ** Glossary formulas *)

Lemma glossary_item_latex (item : Glossary.item) :
  latex_calls (displayed (glossary_item item)) = formula_list item.
Proof. destruct item as [t d [f|]]; reflexivity. Qed.

Lemma glossary_category_latex (entry : string * list Glossary.item) :
  latex_calls (displayed (glossary_category entry)) = flat_map formula_list (snd entry).
Proof.
  destruct entry as [category terms]. rewrite glossary_category_displayed.
  unfold latex_calls. cbn [flat_map app snd].
  rewrite flat_map_app, flat_map_flat_map. cbn [flat_map]. rewrite app_nil_r.
  apply flat_map_ext_all, glossary_item_latex.
Qed.

(** C5: an entry with a formula produces exactly one formula call, with
    that formula, and an entry without one produces none; over a whole
    Glossary panel the formula calls are the formulas of the entries, in
    order. *)
Theorem formula_rendering :
  (forall item : Glossary.item,
      latex_calls (displayed (glossary_item item)) = formula_list item /\
      count is_latex (displayed (glossary_item item))
      = match Glossary.formula item with Some _ => 1 | None => 0 end) /\
  (forall glossary : glossary_dict,
      latex_calls (displayed (glossary_tab_body glossary)) = formulas_of glossary).
Proof.
  split.
  - intro item. split; [apply glossary_item_latex|].
    destruct item as [t d [f|]]; reflexivity.
  - intro glossary.
    rewrite (yields_displayed (glossary_tab_body_yields glossary)).
    unfold glossary_script, latex_calls, formulas_of.
    rewrite flat_map_app, flat_map_flat_map. cbn [glossary_tab_intro flat_map app].
    apply flat_map_ext_all, glossary_category_latex.
Qed.

(** ** The providers build fresh objects *)

Lemma all_some_map_Some {A} (l : list A) : all_some (map Some l) = Some l.
Proof. induction l as [|x l IH]; simpl; [reflexivity | now rewrite IH]. Qed.

Lemma builds_str (s : string) (depth : nat) : builds (str s) (TStr s) depth.
Proof.
  intro h. exists []. split; [simpl; now rewrite app_nil_r|].
  intros older newer fuel _ _. now destruct fuel.
Qed.

Lemma builds_float (x : tenths) (depth : nat) :
  builds (literal (PyFloat x)) (TFloat x) depth.
Proof.
  intro h. exists []. split; [simpl; now rewrite app_nil_r|].
  intros older newer fuel _ _. now destruct fuel.
Qed.

Lemma builds_deeper (m : store value) (t : tree) (depth depth' : nat) :
  depth <= depth' -> builds m t depth -> builds m t depth'.
Proof.
  intros Hle Hm h. destruct (Hm h) as (new & Hsnd & Hread).
  exists new. split; [exact Hsnd|].
  intros older newer fuel Hlen Hfuel. apply Hread; [exact Hlen | lia].
Qed.

Lemma eval_all_builds (items : list (store value)) (ts : list tree) (depth : nat) :
  Forall2 (fun m t => builds m t depth) items ts ->
  forall h, exists new,
    snd (eval_all items h) = h ++ new /\
    forall older newer fuel,
      List.length older = List.length h -> depth <= fuel ->
      map (structure fuel (older ++ new ++ newer)) (fst (eval_all items h))
      = map Some ts.
Proof.
  induction 1 as [|m t items ts Hm _ IH]; intro h.
  - exists []. split; [simpl; now rewrite app_nil_r | reflexivity].
  - destruct (Hm h) as (new1 & Hsnd1 & Hread1).
    cbn [eval_all]. destruct (m h) as [v h1]. cbn [fst snd] in *. subst h1.
    destruct (IH (h ++ new1)) as (new2 & Hsnd2 & Hread2).
    destruct (eval_all items (h ++ new1)) as [vs h2]. cbn [fst snd] in *. subst h2.
    exists (new1 ++ new2). split; [now rewrite app_assoc|].
    intros older newer fuel Hlen Hfuel. cbn [map]. f_equal.
    + rewrite <- (app_assoc new1 new2 newer). now apply Hread1.
    + specialize (Hread2 (older ++ new1) newer fuel).
      rewrite <- !app_assoc in Hread2. rewrite <- app_assoc.
      apply Hread2; [|exact Hfuel]. rewrite !length_app. lia.
Qed.

Lemma eval_entries_builds (entries : list (string * store value))
    (ts : list (string * tree)) (depth : nat) :
  Forall2 (fun e t => fst e = fst t /\ builds (snd e) (snd t) depth) entries ts ->
  forall h, exists new,
    snd (eval_entries entries h) = h ++ new /\
    forall older newer fuel,
      List.length older = List.length h -> depth <= fuel ->
      map (fun entry => option_map (pair (fst entry))
                          (structure fuel (older ++ new ++ newer) (snd entry)))
          (fst (eval_entries entries h))
      = map Some ts.
Proof.
  induction 1 as [|[key m] [key' t] entries ts [Hkey Hm] _ IH]; intro h.
  - exists []. split; [simpl; now rewrite app_nil_r | reflexivity].
  - cbn [fst snd] in Hkey, Hm. subst key'.
    destruct (Hm h) as (new1 & Hsnd1 & Hread1).
    cbn [eval_entries]. destruct (m h) as [v h1]. cbn [fst snd] in *. subst h1.
    destruct (IH (h ++ new1)) as (new2 & Hsnd2 & Hread2).
    destruct (eval_entries entries (h ++ new1)) as [vs h2]. cbn [fst snd] in *.
    subst h2.
    exists (new1 ++ new2). split; [now rewrite app_assoc|].
    intros older newer fuel Hlen Hfuel. cbn [map fst snd]. f_equal.
    + rewrite <- (app_assoc new1 new2 newer). now rewrite Hread1.
    + specialize (Hread2 (older ++ new1) newer fuel).
      rewrite <- !app_assoc in Hread2. rewrite <- app_assoc.
      apply Hread2; [|exact Hfuel]. rewrite !length_app. lia.
Qed.

Lemma nth_error_middle {A} (l l' : list A) (x : A) (n : nat) :
  n = List.length l -> nth_error (l ++ x :: l') n = Some x.
Proof. intros ->. rewrite nth_error_app2 by lia. now rewrite Nat.sub_diag. Qed.

Lemma builds_list (items : list (store value)) (ts : list tree) (depth : nat) :
  Forall2 (fun m t => builds m t depth) items ts ->
  builds (list_display items) (TList ts) (S depth).
Proof.
  intros Hall h. destruct (eval_all_builds Hall h) as (new & Hsnd & Hread).
  unfold list_display, alloc.
  destruct (eval_all items h) as [vs h']. cbn [fst snd] in *. subst h'.
  exists (new ++ [PyList vs]). split; [now rewrite app_assoc|].
  intros older newer fuel Hlen Hfuel.
  destruct fuel as [|fuel]; [lia|]. cbn [structure].
  replace (older ++ (new ++ [PyList vs]) ++ newer)
    with ((older ++ new) ++ PyList vs :: newer)
    by (rewrite <- !app_assoc; reflexivity).
  rewrite nth_error_middle by (rewrite !length_app; lia).
  replace ((older ++ new) ++ PyList vs :: newer)
    with (older ++ new ++ ([PyList vs] ++ newer))
    by (rewrite <- !app_assoc; reflexivity).
  rewrite Hread by (try exact Hlen; lia).
  now rewrite all_some_map_Some.
Qed.

Lemma builds_dict (entries : list (string * store value))
    (ts : list (string * tree)) (depth : nat) :
  Forall2 (fun e t => fst e = fst t /\ builds (snd e) (snd t) depth) entries ts ->
  builds (dict_display entries) (TDict ts) (S depth).
Proof.
  intros Hall h. destruct (eval_entries_builds Hall h) as (new & Hsnd & Hread).
  unfold dict_display, alloc.
  destruct (eval_entries entries h) as [vs h']. cbn [fst snd] in *. subst h'.
  exists (new ++ [PyDict vs]). split; [now rewrite app_assoc|].
  intros older newer fuel Hlen Hfuel.
  destruct fuel as [|fuel]; [lia|]. cbn [structure].
  replace (older ++ (new ++ [PyDict vs]) ++ newer)
    with ((older ++ new) ++ PyDict vs :: newer)
    by (rewrite <- !app_assoc; reflexivity).
  rewrite nth_error_middle by (rewrite !length_app; lia).
  replace ((older ++ new) ++ PyDict vs :: newer)
    with (older ++ new ++ ([PyDict vs] ++ newer))
    by (rewrite <- !app_assoc; reflexivity).
  rewrite Hread by (try exact Hlen; lia).
  now rewrite all_some_map_Some.
Qed.

Lemma Forall2_map {A B C} (P : B -> C -> Prop) (f : A -> B) (g : A -> C) (l : list A) :
  (forall x, P (f x) (g x)) -> Forall2 P (map f l) (map g l).
Proof. intro H. induction l; simpl; constructor; auto. Qed.

Ltac entries_built :=
  repeat first
    [ apply Forall2_nil
    | apply Forall2_cons; [split; [reflexivity|] | ] ].

Lemma event_display_builds (event : Kaizen.event) :
  builds (Store.event_display event) (event_tree event) 1.
Proof.
  apply builds_dict. entries_built; apply builds_str.
Qed.

Lemma kaizen_data_builds :
  builds Store.get_overhauled_kaizen_data (events_tree sample_events) 2.
Proof. apply builds_list, Forall2_map, event_display_builds. Qed.

Lemma material_display_builds (material : Training.material) :
  builds (Store.material_display material) (material_tree material) 2.
Proof.
  apply builds_dict. entries_built;
    try apply builds_str; try apply builds_float.
  apply builds_list, Forall2_map. intro s. apply builds_str.
Qed.

Lemma training_data_builds :
  builds Store.get_overhauled_training_data (materials_tree sample_materials) 3.
Proof. apply builds_list, Forall2_map, material_display_builds. Qed.

Lemma term_display_builds (item : Glossary.item) :
  builds (Store.term_display item) (term_tree item) 1.
Proof.
  unfold Store.term_display, term_tree. apply builds_dict.
  destruct (Glossary.formula item); entries_built; apply builds_str.
Qed.

Lemma glossary_content_builds :
  builds Store.get_glossary_content (glossary_tree sample_glossary) 3.
Proof.
  apply builds_dict, Forall2_map. intros [category terms]. split; [reflexivity|].
  apply builds_list, Forall2_map, term_display_builds.
Qed.

Lemma list_display_makes_object (items : list (store value)) (ts : list tree)
    (depth : nat) :
  Forall2 (fun m t => builds m t depth) items ts -> makes_object (list_display items).
Proof.
  intros Hall h. destruct (eval_all_builds Hall h) as (new & Hsnd & _).
  unfold list_display, alloc.
  destruct (eval_all items h) as [vs h']. cbn [fst snd] in *. subst h'.
  eexists. split; [reflexivity|]. rewrite !length_app. simpl. lia.
Qed.

Lemma dict_display_makes_object (entries : list (string * store value))
    (ts : list (string * tree)) (depth : nat) :
  Forall2 (fun e t => fst e = fst t /\ builds (snd e) (snd t) depth) entries ts ->
  makes_object (dict_display entries).
Proof.
  intros Hall h. destruct (eval_entries_builds Hall h) as (new & Hsnd & _).
  unfold dict_display, alloc.
  destruct (eval_entries entries h) as [vs h']. cbn [fst snd] in *. subst h'.
  eexists. split; [reflexivity|]. rewrite !length_app. simpl. lia.
Qed.

Lemma kaizen_data_makes_object : makes_object Store.get_overhauled_kaizen_data.
Proof.
  eapply list_display_makes_object, Forall2_map, event_display_builds.
Qed.

Lemma training_data_makes_object : makes_object Store.get_overhauled_training_data.
Proof.
  eapply list_display_makes_object, Forall2_map, material_display_builds.
Qed.

Lemma glossary_content_makes_object : makes_object Store.get_glossary_content.
Proof.
  eapply dict_display_makes_object with (ts := map category_tree sample_glossary).
  apply Forall2_map. intros [category terms]. split; [reflexivity|].
  apply builds_list, Forall2_map, term_display_builds.
Qed.

(** Two successive calls of code that builds a structure in an object of
    its own are independent of each other and of the store. *)
Lemma built_twice (provider : store value) (t : tree) (depth fuel : nat) (h : heap) :
  builds provider t depth -> makes_object provider -> depth <= fuel ->
  independent_calls provider t fuel h.
Proof.
  intros Hb Hf Hfuel. unfold independent_calls.
  destruct (Hb h) as (new1 & Hsnd1 & Hread1).
  destruct (Hf h) as (a1 & Hr1 & Hlo1 & Hhi1).
  destruct (provider h) as [r1 h1]. cbn [fst snd] in *. subst h1 r1.
  destruct (Hb (h ++ new1)) as (new2 & Hsnd2 & Hread2).
  destruct (Hf (h ++ new1)) as (a2 & Hr2 & Hlo2 & Hhi2).
  destruct (provider (h ++ new1)) as [r2 h2]. cbn [fst snd] in *. subst h2 r2.
  repeat apply conj.
  - rewrite <- app_assoc. now apply Hread1.
  - specialize (Hread2 (h ++ new1) [] fuel eq_refl Hfuel).
    now rewrite app_nil_r in Hread2.
  - intros [= ->]. lia.
  - exists new1, new2. repeat apply conj; try reflexivity.
    + intros changed Hlen. specialize (Hread2 changed [] fuel Hlen Hfuel).
      now rewrite app_nil_r in Hread2.
    + intro changed. rewrite <- app_assoc. now apply Hread1.
Qed.

(** C6: each provider builds its collection anew at every call.  From
    any store, two successive calls return two different objects with
    the same structure, that of the collection the page is rendered
    from; a call only adds objects to the store, so it changes nothing
    that was there; the second result has this structure whatever has
    become of the objects that existed before the second call, the first
    result among them; and the first result keeps it whatever is done to
    the objects of the second. *)
Theorem provider_calls_are_independent (h : heap) (fuel : nat) (Hfuel : 3 <= fuel) :
  independent_calls Store.get_overhauled_kaizen_data (events_tree sample_events)
                    fuel h /\
  independent_calls Store.get_overhauled_training_data (materials_tree sample_materials)
                    fuel h /\
  independent_calls Store.get_glossary_content (glossary_tree sample_glossary)
                    fuel h.
Proof.
  split; [|split].
  - apply built_twice with (depth := 2);
      [apply kaizen_data_builds | apply kaizen_data_makes_object | lia].
  - apply built_twice with (depth := 3);
      [apply training_data_builds | apply training_data_makes_object | exact Hfuel].
  - apply built_twice with (depth := 3);
      [apply glossary_content_builds | apply glossary_content_makes_object | exact Hfuel].
Qed.

(** The theorem at a store that holds one list already, following
    references three levels deep. *)
Lemma provider_calls_are_independent_witness :
  independent_calls Store.get_overhauled_kaizen_data (events_tree sample_events)
                    3 [PyList []] /\
  independent_calls Store.get_overhauled_training_data (materials_tree sample_materials)
                    3 [PyList []] /\
  independent_calls Store.get_glossary_content (glossary_tree sample_glossary)
                    3 [PyList []].
Proof.
  exact (@provider_calls_are_independent [PyList []] 3 (le_n 3)).
Defined.

(** ** Glossary sections *)

Lemma glossary_item_sections (item : Glossary.item) :
  sections (displayed (glossary_item item)) = [].
Proof. destruct item as [t d [f|]]; reflexivity. Qed.

(** C7: in the Glossary panel of the page the four categories are four
    collapsible sections, in the order of the mapping; the first, Lean
    Principles, is expanded and the other three are collapsed.  The
    section of any category is expanded exactly when its name is
    Lean Principles. *)
Theorem glossary_sections_default :
  sections (panel 2 hub_page)
  = [("**Lean Principles**", true);
     ("**Six Sigma Concepts**", false);
     ("**Statistical & Analytical Methods**", false);
     ("**AI/ML for Operations**", false)] /\
  (forall (category : string) (terms : list Glossary.item),
      sections (displayed (glossary_category (category, terms)))
      = [("**" +++ category +++ "**", String.eqb category "Lean Principles")]).
Proof.
  split; [vm_compute; reflexivity|].
  intros category terms. rewrite glossary_category_displayed.
  unfold sections. cbn [flat_map app].
  rewrite flat_map_app, flat_map_flat_map. cbn [flat_map app].
  rewrite (flat_map_nil _ _ glossary_item_sections). reflexivity.
Qed.

(** ** Training cards *)

Lemma training_script_cards (training_materials : list Training.material) :
  cards (training_script training_materials) = map training_card training_materials.
Proof.
  unfold training_script, cards. rewrite flat_map_app. cbn [training_tab_intro flat_map app].
  destruct training_materials as [|m l]; [reflexivity|].
  generalize (m :: l). intro mats.
  induction mats as [|x mats IH]; [reflexivity|].
  cbn [map flat_map app]. now rewrite IH.
Qed.

(** C8: the provider gives five materials; the Training Library panel of
    the page holds exactly their five cards, one per material and in
    order; each card contains the title and the icon of its material and
    as many list items as the material has objectives; the card of
    TRN-101 lists four.  For any catalog the panel holds one card per
    material, in order. *)
Theorem training_cards :
  List.length sample_materials = 5 /\
  cards (panel 1 hub_page) = map training_card sample_materials /\
  count is_card (panel 1 hub_page) = 5 /\
  forallb card_shows sample_materials = true /\
  map (fun material => (Training.id material,
                        occurrences "<li>" (training_card material)))
      sample_materials
  = [("TRN-101", 4); ("TRN-102", 4); ("TRN-103", 4); ("TRN-104", 4); ("TRN-105", 4)] /\
  (forall training_materials : list Training.material,
      cards (displayed (training_tab_body training_materials))
      = map training_card training_materials).
Proof.
  repeat apply conj; try (vm_compute; reflexivity).
  intro mats. rewrite (yields_displayed (training_tab_body_yields mats)).
  apply training_script_cards.
Qed.

(** ** The event provider *)

(** C9: on any substrate and page the event provider returns the same
    four events in the same order, raises nothing and displays nothing;
    the list is not empty, the identifiers in it are pairwise distinct,
    and so are the report keys of the events rendered on the page. *)
Theorem kaizen_provider_contract (tk : toolkit) (tr : trace) :
  get_overhauled_kaizen_data tk tr = (Returned sample_events, tr) /\
  sample_events <> [] /\
  map Kaizen.id sample_events = ["KZN-02"; "KZN-01"; "KZN-04"; "KZN-03"] /\
  NoDup (map Kaizen.id sample_events) /\
  NoDup (button_keys hub_page) /\
  Permutation (button_keys hub_page) (map report_key sample_events).
Proof.
  assert (Hids : map Kaizen.id sample_events = ["KZN-02"; "KZN-01"; "KZN-04"; "KZN-03"])
    by reflexivity.
  assert (Hkeys : button_keys hub_page
                  = ["report_KZN-04"; "report_KZN-03"; "report_KZN-02"; "report_KZN-01"])
    by (vm_compute; reflexivity).
  assert (Hreport : map report_key sample_events
                  = ["report_KZN-02"; "report_KZN-01"; "report_KZN-04"; "report_KZN-03"])
    by reflexivity.
  repeat apply conj.
  - reflexivity.
  - discriminate.
  - exact Hids.
  - rewrite Hids. repeat constructor; simpl; intuition discriminate.
  - rewrite Hkeys. repeat constructor; simpl; intuition discriminate.
  - rewrite Hkeys, Hreport.
    apply (Permutation_app_comm ["report_KZN-04"; "report_KZN-03"]
                                ["report_KZN-02"; "report_KZN-01"]).
Qed.

(** ** The order of strings *)

Lemma str_le_cases (a b : string) :
  str_le a b = true <-> String_as_OT.lt a b \/ a = b.
Proof.
  unfold str_le, String.leb. split.
  - destruct (String.compare a b) eqn:Hc; intro H; try discriminate.
    + right. now apply String.compare_eq_iff.
    + left. now apply String_as_OT.cmp_lt.
  - intros [Hlt | ->].
    + apply String_as_OT.cmp_lt in Hlt. unfold String_as_OT.cmp in Hlt. now rewrite Hlt.
    + assert (H : String.compare b b = Eq) by now apply String_as_OT.cmp_eq.
      now rewrite H.
Qed.

Lemma str_le_trans (a b c : string) :
  str_le a b = true -> str_le b c = true -> str_le a c = true.
Proof.
  rewrite !str_le_cases. intros [Hab | ->] [Hbc | ->]; auto.
  left. eapply String_as_OT.lt_trans; eassumption.
Qed.

Lemma str_le_total (a b : string) : str_le a b = true \/ str_le b a = true.
Proof. apply String.leb_total. Qed.

Lemma str_le_lt (a b : string) : str_le a b = true -> a <> b -> str_lt a b = true.
Proof.
  unfold str_le, str_lt, String.leb, String.ltb.
  destruct (String.compare a b) eqn:Hc; intros H Hne; try discriminate; [|reflexivity].
  now apply String.compare_eq_iff in Hc.
Qed.

(** ** [sort_values] *)

Section SortValues.
Variable A : Type.
Variable key : A -> string.

Lemma insert_row_perm (r : nat * A) (l : pd.DataFrame A) :
  Permutation (pd.insert_row key r l) (r :: l).
Proof.
  induction l as [|r' l IH]; simpl; [reflexivity|].
  destruct (str_le (key (snd r)) (key (snd r'))); [reflexivity|].
  rewrite IH. apply perm_swap.
Qed.

Lemma sort_ascending_perm (l : pd.DataFrame A) :
  Permutation (pd.sort_ascending key l) l.
Proof.
  induction l as [|r l IH]; simpl; [reflexivity|].
  rewrite insert_row_perm. now constructor.
Qed.

Lemma insert_row_sorted (r : nat * A) (l : pd.DataFrame A) :
  StronglySorted (row_le key) l -> StronglySorted (row_le key) (pd.insert_row key r l).
Proof.
  induction 1 as [|r' l Hl IH Hall]; simpl.
  - constructor; constructor.
  - destruct (str_le (key (snd r)) (key (snd r'))) eqn:Hle.
    + constructor; [now constructor|].
      constructor; [exact Hle|].
      eapply Forall_impl; [|exact Hall].
      intros x Hx. unfold row_le in *. eapply str_le_trans; eassumption.
    + constructor; [exact IH|].
      apply (Permutation_Forall (x := r :: l)).
      * symmetry. apply insert_row_perm.
      * constructor; [|exact Hall].
        unfold row_le. destruct (str_le_total (key (snd r)) (key (snd r'))) as [H|H];
          [congruence | exact H].
Qed.

Lemma sort_ascending_sorted (l : pd.DataFrame A) :
  StronglySorted (row_le key) (pd.sort_ascending key l).
Proof.
  induction l as [|r l IH]; simpl; [constructor|].
  now apply insert_row_sorted.
Qed.

Lemma sort_values_perm (ascending : bool) (df : pd.DataFrame A) :
  Permutation (pd.sort_values key ascending df) df.
Proof.
  unfold pd.sort_values. destruct ascending.
  - apply sort_ascending_perm.
  - rewrite <- Permutation_rev, sort_ascending_perm. symmetry. apply Permutation_rev.
Qed.

End SortValues.

Lemma StronglySorted_app_last {A} (R : A -> A -> Prop) (l : list A) (x : A) :
  StronglySorted R l -> Forall (fun y => R y x) l -> StronglySorted R (l ++ [x]).
Proof.
  induction 1 as [|a l Hl IH Ha]; intro Hx; simpl.
  - constructor; constructor.
  - inversion Hx; subst. constructor; [now apply IH|].
    apply Forall_app. split; [exact Ha | now constructor].
Qed.

Lemma StronglySorted_rev {A} (R : A -> A -> Prop) (l : list A) :
  StronglySorted R l -> StronglySorted (fun a b => R b a) (rev l).
Proof.
  induction 1 as [|a l Hl IH Ha]; simpl; [constructor|].
  apply StronglySorted_app_last; [exact IH|].
  apply Forall_rev. exact Ha.
Qed.

Lemma StronglySorted_map {A B} (f : A -> B) (R : B -> B -> Prop) (l : list A) :
  StronglySorted (fun a b => R (f a) (f b)) l -> StronglySorted R (map f l).
Proof.
  induction 1 as [|a l Hl IH Ha]; simpl; constructor; [exact IH|].
  apply Forall_map. exact Ha.
Qed.

Lemma StronglySorted_strict {A B} (f : A -> B) (R S : A -> A -> Prop) (l : list A) :
  (forall a b, R a b -> f a <> f b -> S a b) ->
  NoDup (map f l) -> StronglySorted R l -> StronglySorted S l.
Proof.
  intros HRS Hnd Hs. induction Hs as [|a l Hl IH Ha]; [constructor|].
  simpl in Hnd. inversion Hnd as [|? ? Hnotin Hnd']; subst.
  constructor; [now apply IH|].
  rewrite Forall_forall in *. intros b Hb. apply HRS; [now apply Ha|].
  intro Heq. apply Hnotin. rewrite Heq. now apply in_map.
Qed.

(** ** The rows of the Event Log *)

Lemma event_rows_perm (events : list Kaizen.event) :
  Permutation (event_rows events) events.
Proof.
  unfold event_rows, pd.iterrows.
  rewrite <- (snd_from_records events) at 2.
  apply Permutation_map, sort_values_perm.
Qed.

(** The rows are in descending order of their date strings. *)
Lemma event_rows_sorted (events : list Kaizen.event) :
  StronglySorted (fun a b => str_le (Kaizen.date b) (Kaizen.date a) = true)
                 (event_rows events).
Proof.
  unfold event_rows, pd.iterrows, pd.sort_values.
  apply StronglySorted_map with (f := @snd nat Kaizen.event)
    (R := fun a b => str_le (Kaizen.date b) (Kaizen.date a) = true).
  apply (StronglySorted_rev (R := row_le Kaizen.date)).
  apply sort_ascending_sorted.
Qed.

Lemma event_rows_keys (events : list Kaizen.event) :
  button_keys (displayed (events_tab_body events)) = map report_key (event_rows events).
Proof.
  rewrite (yields_displayed (events_tab_body_yields events)).
  unfold events_script, button_keys. rewrite flat_map_app. cbn [events_tab_intro flat_map app].
  destruct events as [|e l]; [reflexivity|].
  rewrite flat_map_flat_map, <- flat_map_singleton.
  apply flat_map_ext_all. reflexivity.
Qed.

(** ** Event Log order *)

(** C3: for events with pairwise distinct dates the Event Log panel shows
    one block per event, the blocks standing in strictly descending order
    of the date field; the four events of the page come out as KZN-04,
    KZN-03, KZN-02, KZN-01. *)
Theorem event_log_descending_by_date
    (events : list Kaizen.event)
    (Hdistinct : NoDup (map Kaizen.date events)) :
  let rows := event_rows events in
  displayed (events_tab_body events) = events_script events /\
  button_keys (displayed (events_tab_body events)) = map report_key rows /\
  Permutation rows events /\
  StronglySorted (fun a b => str_lt (Kaizen.date b) (Kaizen.date a) = true) rows /\
  button_keys (panel 0 hub_page)
  = ["report_KZN-04"; "report_KZN-03"; "report_KZN-02"; "report_KZN-01"] /\
  map Kaizen.date (event_rows sample_events)
  = ["2025-07-20"; "2025-07-01"; "2025-06-15"; "2025-05-22"].
Proof.
  cbv zeta. repeat apply conj.
  - apply yields_displayed, events_tab_body_yields.
  - apply event_rows_keys.
  - apply event_rows_perm.
  - apply StronglySorted_strict
      with (f := Kaizen.date)
           (R := fun a b => str_le (Kaizen.date b) (Kaizen.date a) = true).
    + intros a b Hle Hne. apply str_le_lt; [exact Hle | congruence].
    + eapply Permutation_NoDup; [|exact Hdistinct].
      apply Permutation_map. symmetry. apply event_rows_perm.
    + apply event_rows_sorted.
  - vm_compute. reflexivity.
  - vm_compute. reflexivity.
Qed.

(** The theorem at the four events of the module, whose dates are
    pairwise distinct. *)
Lemma event_log_descending_by_date_witness :
  let rows := event_rows sample_events in
  displayed (events_tab_body sample_events) = events_script sample_events /\
  button_keys (displayed (events_tab_body sample_events)) = map report_key rows /\
  Permutation rows sample_events /\
  StronglySorted (fun a b => str_lt (Kaizen.date b) (Kaizen.date a) = true) rows /\
  button_keys (panel 0 hub_page)
  = ["report_KZN-04"; "report_KZN-03"; "report_KZN-02"; "report_KZN-01"] /\
  map Kaizen.date (event_rows sample_events)
  = ["2025-07-20"; "2025-07-01"; "2025-06-15"; "2025-05-22"].
Proof.
  apply (event_log_descending_by_date sample_events).
  repeat constructor; simpl; intuition discriminate.
Defined.

(** ** Date strings and days *)

Lemma digit_of_bound (c : ascii) (d : nat) : digit_of c = Some d -> d < 10.
Proof.
  unfold digit_of.
  destruct (Nat.leb 48 (nat_of_ascii c)) eqn:H1; [|discriminate].
  destruct (Nat.leb (nat_of_ascii c) 57) eqn:H2; [|discriminate].
  apply Nat.leb_le in H1, H2. intros [= <-]. lia.
Qed.

Lemma digit_not_dash (c : ascii) (d : nat) :
  digit_of c = Some d -> Ascii.eqb c "-" = false.
Proof.
  intro H. destruct (Ascii.eqb_spec c "-") as [->|]; [discriminate|reflexivity].
Qed.

Lemma digit_compare (a b : ascii) (n m : nat) :
  digit_of a = Some n -> digit_of b = Some m -> Ascii.compare a b = Nat.compare n m.
Proof.
  unfold digit_of, Ascii.compare, nat_of_ascii.
  destruct (Nat.leb 48 _) eqn:Ha1; [|discriminate].
  destruct (Nat.leb _ 57) eqn:Ha2; [|discriminate].
  destruct (Nat.leb 48 (N.to_nat (N_of_ascii b))) eqn:Hb1; [|discriminate].
  destruct (Nat.leb (N.to_nat (N_of_ascii b)) 57) eqn:Hb2; [|discriminate].
  apply Nat.leb_le in Ha1, Ha2, Hb1, Hb2. intros [= <-] [= <-].
  rewrite N2Nat.inj_compare.
  destruct (Nat.compare_spec (N.to_nat (N_of_ascii a)) (N.to_nat (N_of_ascii b)));
    symmetry; [apply Nat.compare_eq_iff | apply Nat.compare_lt_iff
              | apply Nat.compare_gt_iff]; lia.
Qed.

Lemma is_digit_value (c : ascii) : is_digit c = true -> exists d, digit_of c = Some d.
Proof. unfold is_digit. destruct (digit_of c) as [d|]; [eauto | discriminate]. Qed.

(** The shape of a zero-padded ISO date, with the values of its digits. *)
Lemma iso_date_shape (s : string) :
  is_iso_date s = true ->
  exists y1 y2 y3 y4 m1 m2 d1 d2 ny1 ny2 ny3 ny4 nm1 nm2 nd1 nd2,
    s = String y1 (String y2 (String y3 (String y4 (String "-" (String m1 (String m2
          (String "-" (String d1 (String d2 EmptyString))))))))) /\
    digit_of y1 = Some ny1 /\ digit_of y2 = Some ny2 /\
    digit_of y3 = Some ny3 /\ digit_of y4 = Some ny4 /\
    digit_of m1 = Some nm1 /\ digit_of m2 = Some nm2 /\
    digit_of d1 = Some nd1 /\ digit_of d2 = Some nd2.
Proof.
  destruct s as [|y1 [|y2 [|y3 [|y4 [|s1 [|m1 [|m2 [|s2 [|d1 [|d2 [|? ?]]]]]]]]]]];
    try discriminate.
  simpl. rewrite !andb_true_iff.
  intros [[[[[[[[[Hy1 Hy2] Hy3] Hy4] Hs1] Hm1] Hm2] Hs2] Hd1] Hd2].
  apply Ascii.eqb_eq in Hs1, Hs2. subst s1 s2.
  destruct (@is_digit_value _ Hy1) as [ny1 ?], (@is_digit_value _ Hy2) as [ny2 ?],
           (@is_digit_value _ Hy3) as [ny3 ?], (@is_digit_value _ Hy4) as [ny4 ?],
           (@is_digit_value _ Hm1) as [nm1 ?], (@is_digit_value _ Hm2) as [nm2 ?],
           (@is_digit_value _ Hd1) as [nd1 ?], (@is_digit_value _ Hd2) as [nd2 ?].
  exists y1, y2, y3, y4, m1, m2, d1, d2, ny1, ny2, ny3, ny4, nm1, nm2, nd1, nd2.
  repeat split; assumption.
Qed.

Lemma read_digit (c : ascii) (d : nat) (s : string) (field : option nat) :
  digit_of c = Some d ->
  read_fields (String c s) field
  = read_fields s (Some (10 * match field with Some n => n | None => 0 end + d)).
Proof.
  intro H. cbn [read_fields]. now rewrite (@digit_not_dash _ _ H), H.
Qed.

Lemma read_dash (s : string) (n : nat) :
  read_fields (String "-" s) (Some n)
  = match read_fields s None with Some rest => Some (n :: rest) | None => None end.
Proof. reflexivity. Qed.

Lemma iso_calendar_date y1 y2 y3 y4 m1 m2 d1 d2 ny1 ny2 ny3 ny4 nm1 nm2 nd1 nd2 :
  digit_of y1 = Some ny1 -> digit_of y2 = Some ny2 ->
  digit_of y3 = Some ny3 -> digit_of y4 = Some ny4 ->
  digit_of m1 = Some nm1 -> digit_of m2 = Some nm2 ->
  digit_of d1 = Some nd1 -> digit_of d2 = Some nd2 ->
  calendar_date
    (String y1 (String y2 (String y3 (String y4 (String "-" (String m1 (String m2
       (String "-" (String d1 (String d2 EmptyString))))))))))
  = Some (10 * (10 * (10 * (10 * 0 + ny1) + ny2) + ny3) + ny4,
          10 * (10 * 0 + nm1) + nm2,
          10 * (10 * 0 + nd1) + nd2).
Proof.
  intros Hy1 Hy2 Hy3 Hy4 Hm1 Hm2 Hd1 Hd2. unfold calendar_date.
  rewrite (@read_digit _ _ _ _ Hy1), (@read_digit _ _ _ _ Hy2), (@read_digit _ _ _ _ Hy3),
    (@read_digit _ _ _ _ Hy4).
  rewrite read_dash, (@read_digit _ _ _ _ Hm1), (@read_digit _ _ _ _ Hm2).
  rewrite read_dash, (@read_digit _ _ _ _ Hd1), (@read_digit _ _ _ _ Hd2).
  reflexivity.
Qed.

Ltac decide_compare :=
  repeat rewrite Nat.compare_refl;
  first [ reflexivity
        | rewrite (proj2 (Nat.compare_lt_iff _ _)) by lia; reflexivity
        | rewrite (proj2 (Nat.compare_gt_iff _ _)) by lia; reflexivity ].

(** On zero-padded ISO dates the order of the strings is the order of
    the days. *)
Lemma iso_compare (s t : string) :
  is_iso_date s = true -> is_iso_date t = true ->
  exists x y, calendar_date s = Some x /\ calendar_date t = Some y /\
              String.compare s t = chron_compare x y.
Proof.
  intros Hs Ht.
  destruct (@iso_date_shape _ Hs)
    as (y1 & y2 & y3 & y4 & m1 & m2 & d1 & d2 & a1 & a2 & a3 & a4 & a5 & a6 & a7 & a8
        & -> & Hy1 & Hy2 & Hy3 & Hy4 & Hm1 & Hm2 & Hd1 & Hd2).
  destruct (@iso_date_shape _ Ht)
    as (z1 & z2 & z3 & z4 & n1 & n2 & e1 & e2 & b1 & b2 & b3 & b4 & b5 & b6 & b7 & b8
        & -> & Hz1 & Hz2 & Hz3 & Hz4 & Hn1 & Hn2 & He1 & He2).
  do 2 eexists. split; [|split].
  - apply iso_calendar_date; eassumption.
  - apply iso_calendar_date; eassumption.
  - cbn [String.compare].
    rewrite (@digit_compare _ _ _ _ Hy1 Hz1), (@digit_compare _ _ _ _ Hy2 Hz2),
      (@digit_compare _ _ _ _ Hy3 Hz3), (@digit_compare _ _ _ _ Hy4 Hz4),
      (@digit_compare _ _ _ _ Hm1 Hn1), (@digit_compare _ _ _ _ Hm2 Hn2),
      (@digit_compare _ _ _ _ Hd1 He1), (@digit_compare _ _ _ _ Hd2 He2).
    change (Ascii.compare "-" "-") with Eq. cbv iota.
    apply digit_of_bound in Hy1, Hy2, Hy3, Hy4, Hm1, Hm2, Hd1, Hd2,
                            Hz1, Hz2, Hz3, Hz4, Hn1, Hn2, He1, He2.
    unfold chron_compare.
    destruct (Nat.compare_spec a1 b1); [subst | decide_compare | decide_compare].
    destruct (Nat.compare_spec a2 b2); [subst | decide_compare | decide_compare].
    destruct (Nat.compare_spec a3 b3); [subst | decide_compare | decide_compare].
    destruct (Nat.compare_spec a4 b4); [subst | decide_compare | decide_compare].
    rewrite Nat.compare_refl.
    destruct (Nat.compare_spec a5 b5); [subst | decide_compare | decide_compare].
    destruct (Nat.compare_spec a6 b6); [subst | decide_compare | decide_compare].
    rewrite Nat.compare_refl.
    destruct (Nat.compare_spec a7 b7); [subst | decide_compare | decide_compare].
    destruct (Nat.compare_spec a8 b8); [subst | decide_compare | decide_compare].
    decide_compare.
Qed.

Lemma iso_order (s t : string) :
  is_iso_date s = true -> is_iso_date t = true -> str_le s t = not_after s t.
Proof.
  intros Hs Ht. destruct (@iso_compare _ _ Hs Ht) as (x & y & Hx & Hy & Hc).
  unfold str_le, String.leb, not_after. now rewrite Hx, Hy, Hc.
Qed.

Lemma StronglySorted_impl_in {A} (R S : A -> A -> Prop) (l : list A) :
  (forall a b, In a l -> In b l -> R a b -> S a b) ->
  StronglySorted R l -> StronglySorted S l.
Proof.
  intros HRS Hs. induction Hs as [|a l Hl IH Ha]; [constructor|].
  constructor.
  - apply IH. intros x y Hx Hy. apply HRS; now right.
  - rewrite Forall_forall in *. intros b Hb.
    apply HRS; [now left | now right | now apply Ha].
Qed.

(** C10: the blocks of the Event Log panel are those of the rows, and the
    rows are ordered by the date strings themselves, in descending order
    of [str]; when every date is a zero-padded ISO date this order is the
    order of the days, and the blocks stand from the latest day to the
    earliest.  Without the padding it is not: of the two events dated
    2025-10-1 and 2025-9-30 the panel shows the September one first. *)
Theorem date_order_is_lexicographic
    (events : list Kaizen.event)
    (Hiso : Forall (fun event => is_iso_date (Kaizen.date event) = true) events) :
  let rows := event_rows events in
  displayed (events_tab_body events) = events_script events /\
  button_keys (displayed (events_tab_body events)) = map report_key rows /\
  StronglySorted (fun a b => str_le (Kaizen.date b) (Kaizen.date a) = true) rows /\
  (forall a b, In a events -> In b events ->
               str_le (Kaizen.date a) (Kaizen.date b)
               = not_after (Kaizen.date a) (Kaizen.date b)) /\
  StronglySorted (fun a b => not_after (Kaizen.date b) (Kaizen.date a) = true) rows /\
  (let shown := event_rows unpadded_events in
   button_keys (displayed (events_tab_body unpadded_events)) = ["report_B"; "report_A"] /\
   map report_key shown = ["report_B"; "report_A"] /\
   map Kaizen.date shown = ["2025-9-30"; "2025-10-1"] /\
   StronglySorted (fun a b => str_le (Kaizen.date b) (Kaizen.date a) = true) shown /\
   ~ StronglySorted (fun a b => not_after (Kaizen.date b) (Kaizen.date a) = true) shown).
Proof.
  cbv zeta. rewrite Forall_forall in Hiso.
  assert (Hsame : forall a b, In a events -> In b events ->
                    str_le (Kaizen.date a) (Kaizen.date b)
                    = not_after (Kaizen.date a) (Kaizen.date b)).
  { intros a b Ha Hb. apply iso_order; now apply Hiso. }
  repeat apply conj.
  - apply yields_displayed, events_tab_body_yields.
  - apply event_rows_keys.
  - apply event_rows_sorted.
  - exact Hsame.
  - apply StronglySorted_impl_in
      with (R := fun a b => str_le (Kaizen.date b) (Kaizen.date a) = true);
      [|apply event_rows_sorted].
    intros a b Ha Hb Hle. rewrite <- Hsame; [exact Hle | |].
    + eapply Permutation_in; [apply event_rows_perm | exact Hb].
    + eapply Permutation_in; [apply event_rows_perm | exact Ha].
  - vm_compute. reflexivity.
  - reflexivity.
  - reflexivity.
  - apply event_rows_sorted.
  - intro Hs. change (event_rows unpadded_events)
      with [bare_event "B" "2025-9-30"; bare_event "A" "2025-10-1"] in Hs.
    apply StronglySorted_inv in Hs. destruct Hs as [_ Hall].
    inversion Hall as [|? ? Hfirst _]; subst. vm_compute in Hfirst. discriminate.
Qed.

(** The theorem at the four events of the module, whose dates are all
    zero-padded ISO dates. *)
Lemma date_order_is_lexicographic_witness :
  let rows := event_rows sample_events in
  displayed (events_tab_body sample_events) = events_script sample_events /\
  button_keys (displayed (events_tab_body sample_events)) = map report_key rows /\
  StronglySorted (fun a b => str_le (Kaizen.date b) (Kaizen.date a) = true) rows /\
  (forall a b, In a sample_events -> In b sample_events ->
               str_le (Kaizen.date a) (Kaizen.date b)
               = not_after (Kaizen.date a) (Kaizen.date b)) /\
  StronglySorted (fun a b => not_after (Kaizen.date b) (Kaizen.date a) = true) rows /\
  (let shown := event_rows unpadded_events in
   button_keys (displayed (events_tab_body unpadded_events)) = ["report_B"; "report_A"] /\
   map report_key shown = ["report_B"; "report_A"] /\
   map Kaizen.date shown = ["2025-9-30"; "2025-10-1"] /\
   StronglySorted (fun a b => str_le (Kaizen.date b) (Kaizen.date a) = true) shown /\
   ~ StronglySorted (fun a b => not_after (Kaizen.date b) (Kaizen.date a) = true) shown).
Proof.
  apply (@date_order_is_lexicographic sample_events).
  repeat constructor.
Defined.

(** ** Page code on any substrate *)

Lemma ctx_eqb_refl (c : ctx) : ctx_eqb c c = true.
Proof.
  destruct c; simpl; auto using Nat.eqb_refl, String.eqb_refl.
Qed.

Lemma closes_app (stack : list ctx) (a b : trace) :
  closes stack (a ++ b)
  = match closes stack a with Some stack' => closes stack' b | None => None end.
Proof.
  revert stack. induction a as [|c a IH]; intro stack; [reflexivity|].
  destruct c; simpl; auto.
  destruct stack as [|c' stack]; [reflexivity|].
  destruct (ctx_eqb c c'); auto.
Qed.

Lemma visible_app (a b : trace) : visible (a ++ b) = visible a ++ visible b.
Proof. apply filter_app. Qed.

Lemma conforms_ret {A} (a : A) : conforms (ret a) a [].
Proof.
  intros tk tr. exists []. simpl. rewrite app_nil_r. repeat split.
Qed.

Lemma conforms_issue (c : ui_call) : is_marker c = false -> conforms (issue c) tt [c].
Proof.
  intros Hc tk tr. unfold issue. destruct (tk tr c) as [e|] eqn:Htk.
  - exists []. simpl. rewrite app_nil_r. repeat split.
    exists c, [], tr. split; [|exact Htk].
    unfold visible. simpl. destruct c; simpl in *; try reflexivity; discriminate.
  - exists [c]. simpl. repeat split.
    intro stack. destruct c; simpl in *; try reflexivity; discriminate.
Qed.

Lemma conforms_bind {A B} (m : M A) (k : A -> M B) a b s1 s2 :
  conforms m a s1 -> conforms (k a) b s2 -> conforms (bind m k) b (s1 ++ s2).
Proof.
  intros Hm Hk tk tr. unfold bind.
  destruct (Hm tk tr) as (added1 & Hsnd1 & Hcl1 & Hout1).
  destruct (m tk tr) as [[v|e] tr1]; simpl in *; subst tr1.
  - destruct Hout1 as [-> ->].
    destruct (Hk tk (tr ++ s1)) as (added2 & Hsnd2 & Hcl2 & Hout2).
    exists (s1 ++ added2). rewrite Hsnd2, app_assoc. split; [reflexivity|]. split.
    + intro stack. now rewrite closes_app, Hcl1, Hcl2.
    + destruct (fst (k a tk (tr ++ s1))) as [w|e].
      * destruct Hout2 as [-> ->]. now split.
      * destruct Hout2 as (c & rest & before & Hvis & Htk).
        exists c, rest, before. split; [|exact Htk].
        now rewrite !visible_app, Hvis, app_assoc.
  - exists added1. split; [reflexivity|]. split; [exact Hcl1|].
    destruct Hout1 as (c & rest & before & Hvis & Htk).
    exists c, (rest ++ visible s2), before. split; [|exact Htk].
    now rewrite visible_app, Hvis, <- app_assoc.
Qed.

Lemma conforms_seq {A B} (m : M A) (k : A -> M B) a b s1 s2 s :
  conforms m a s1 -> conforms (k a) b s2 -> s = s1 ++ s2 -> conforms (bind m k) b s.
Proof. intros Hm Hk ->. eapply conforms_bind; eassumption. Qed.

Lemma conforms_with {A} (x : ctx) (body : M A) a s :
  conforms body a s -> conforms (with_ x body) a (Enter x :: s ++ [Exit x]).
Proof.
  intros Hb tk tr. unfold with_.
  destruct (Hb tk (tr ++ [Enter x])) as (added & Hsnd & Hcl & Hout).
  destruct (body tk (tr ++ [Enter x])) as [r tr1]; simpl in *; subst tr1.
  exists (Enter x :: added ++ [Exit x]). split.
  { now rewrite <- !app_assoc. }
  split.
  { intro stack. simpl. rewrite closes_app, Hcl. simpl. now rewrite ctx_eqb_refl. }
  destruct r as [v|e].
  - destruct Hout as [-> ->]. now split.
  - destruct Hout as (c & rest & before & Hvis & Htk).
    exists c, rest, before. split; [|exact Htk].
    unfold visible in *. simpl. rewrite !filter_app. simpl.
    rewrite !app_nil_r. now rewrite Hvis.
Qed.

Lemma conforms_for_each {A} (body : A -> M unit) (calls : A -> trace) (l : list A) :
  (forall x, conforms (body x) tt (calls x)) ->
  conforms (for_each l body) tt (flat_map calls l).
Proof.
  intro Hbody. induction l as [|x l IH]; simpl.
  - apply conforms_ret.
  - eapply conforms_bind; [apply Hbody | exact IH].
Qed.

Lemma conforms_for_each_rows {A} (body : A -> M unit) (calls : A -> trace)
    (rows : list (nat * A)) :
  (forall x, conforms (body x) tt (calls x)) ->
  conforms (for_each rows (fun '(_, x) => body x)) tt (flat_map calls (map snd rows)).
Proof.
  intro Hbody. induction rows as [|[i r] rows IH]; [apply conforms_ret|].
  simpl. eapply conforms_seq; [apply Hbody | exact IH | reflexivity].
Qed.

Lemma conforms_returns {A} (provider : M A) (v : A) :
  returns provider v -> conforms provider v [].
Proof.
  intros H tk tr. exists []. rewrite H. simpl. rewrite app_nil_r. repeat split.
Qed.

(** On the substrate that accepts every call, conforming code yields its
    script. *)
Lemma conforms_yields {A} (m : M A) (a : A) (s : trace) :
  conforms m a s -> yields m a s.
Proof.
  intros H tr. destruct (H reliable tr) as (added & Hsnd & _ & Hout).
  destruct (m reliable tr) as [[v|e] tr1]; simpl in *; subst tr1.
  - now destruct Hout as [-> ->].
  - destruct Hout as (c & rest & before & _ & Htk). discriminate.
Qed.

Lemma conforms_displayed (m : M unit) (s : trace) :
  conforms m tt s -> displayed m = s.
Proof. intro H. apply yields_displayed, conforms_yields, H. Qed.

(** Straight-line page code conforms to a script that the proof builds. *)
Ltac conform :=
  repeat first
    [ apply conforms_ret
    | apply conforms_issue; reflexivity
    | apply conforms_with
    | eapply conforms_bind; [ | cbn beta iota zeta ] ].

Lemma container_conforms (border : bool) :
  conforms (st.container border) CtxContainer [StContainer border].
Proof.
  unfold st.container. eapply conforms_seq; [conform | conform | reflexivity].
Qed.

Lemma columns_conforms (spec : list nat) :
  conforms (st.columns spec) (map CtxColumn (seq 0 (List.length spec))) [StColumns spec].
Proof.
  unfold st.columns. eapply conforms_seq; [conform | conform | reflexivity].
Qed.

Lemma expander_conforms (label : string) (expanded : bool) :
  conforms (st.expander label expanded) (CtxExpander label) [StExpander label expanded].
Proof.
  unfold st.expander. eapply conforms_seq; [conform | conform | reflexivity].
Qed.

Lemma tabs_conforms (labels : list string) :
  conforms (st.tabs labels) (map CtxTab (seq 0 (List.length labels))) [StTabs labels].
Proof.
  unfold st.tabs. eapply conforms_seq; [conform | conform | reflexivity].
Qed.

Lemma event_block_conforms (event : Kaizen.event) :
  conforms (event_block event) tt (displayed (event_block event)).
Proof.
  assert (H : exists s, conforms (event_block event) tt s).
  { eexists. unfold event_block.
    eapply conforms_bind; [apply container_conforms|]. cbn beta.
    eapply conforms_bind; [|apply conforms_issue; reflexivity].
    apply conforms_with.
    eapply conforms_bind; [apply columns_conforms|].
    cbn [List.length seq map]. cbn beta.
    eapply conforms_bind; [apply conforms_ret|]. cbn beta iota zeta.
    eapply conforms_bind;
      [apply conforms_with; unfold st.markdown, st.caption; conform|].
    eapply conforms_bind; [apply conforms_with; unfold st.button; conform|].
    unfold st.markdown, st.caption, st.success, st.info.
    eapply conforms_bind; [conform|].
    eapply conforms_bind; [conform|].
    eapply conforms_bind; [apply expander_conforms|]. cbn beta.
    eapply conforms_bind; [apply conforms_with; conform|].
    conform. }
  destruct H as [s H]. now rewrite (conforms_displayed H).
Qed.

Lemma glossary_item_conforms (item : Glossary.item) :
  conforms (glossary_item item) tt (displayed (glossary_item item)).
Proof.
  assert (H : exists s, conforms (glossary_item item) tt s).
  { destruct item as [t d [f|]]; eexists;
      unfold glossary_item, st.markdown, st.latex, st.write;
      cbn [Glossary.formula Glossary.term Glossary.definition]; conform. }
  destruct H as [s H]. now rewrite (conforms_displayed H).
Qed.

Lemma glossary_category_conforms (entry : string * list Glossary.item) :
  conforms (glossary_category entry) tt (displayed (glossary_category entry)).
Proof.
  assert (H : exists s, conforms (glossary_category entry) tt s).
  { destruct entry as [category terms]. eexists. unfold glossary_category.
    eapply conforms_bind; [apply expander_conforms|]. cbn beta.
    apply conforms_with, conforms_for_each, glossary_item_conforms. }
  destruct H as [s H]. now rewrite (conforms_displayed H).
Qed.

Lemma glossary_tab_body_conforms (glossary : glossary_dict) :
  conforms (glossary_tab_body glossary) tt (glossary_script glossary).
Proof.
  unfold glossary_tab_body, glossary_script, items, st.subheader, st.markdown.
  eapply conforms_seq; [conform | | reflexivity].
  eapply conforms_seq; [conform | | reflexivity].
  apply conforms_for_each, glossary_category_conforms.
Qed.

Lemma training_tab_body_conforms (training_materials : list Training.material) :
  conforms (training_tab_body training_materials) tt (training_script training_materials).
Proof.
  unfold training_tab_body, training_script, st.subheader, st.markdown, st.warning.
  eapply conforms_seq; [conform | | reflexivity].
  eapply conforms_seq; [conform | | reflexivity].
  destruct training_materials as [|m l]; [conform|].
  set (records := m :: l). unfold pd.iterrows.
  rewrite <- flat_map_singleton.
  rewrite <- (snd_from_records records) at 2.
  apply conforms_for_each_rows
    with (body := fun material => st.markdown_html (training_card material)).
  intro x. unfold st.markdown_html. conform.
Qed.

Lemma events_tab_body_conforms (kaizen_events : list Kaizen.event) :
  conforms (events_tab_body kaizen_events) tt (events_script kaizen_events).
Proof.
  unfold events_tab_body, events_script, st.subheader, st.markdown, st.warning.
  eapply conforms_seq; [conform | | reflexivity].
  eapply conforms_seq; [conform | | reflexivity].
  destruct kaizen_events as [|e l]; [conform|].
  unfold event_rows.
  apply conforms_for_each_rows with (body := event_block), event_block_conforms.
Qed.

(** The [try] block conforms to the script of the page body, whenever
    the three providers return. *)
Lemma page_body_conforms (g : module_globals) evs mats gls :
  returns (kaizen_provider g) evs ->
  returns (training_provider g) mats ->
  returns (glossary_provider g) gls ->
  conforms (page_body g) tt (body_script evs mats gls).
Proof.
  intros Hev Hmat Hgl. unfold page_body, body_script, st.info.
  eapply conforms_seq; [apply conforms_returns, Hev | | reflexivity].
  eapply conforms_seq; [apply conforms_returns, Hmat | | reflexivity].
  eapply conforms_seq; [apply conforms_returns, Hgl | | reflexivity].
  eapply conforms_seq; [conform | | reflexivity].
  eapply conforms_seq; [apply tabs_conforms | | reflexivity].
  cbn [List.length seq map unpack3].
  eapply conforms_seq; [apply conforms_ret | | reflexivity].
  cbn beta iota zeta.
  eapply conforms_seq; [apply conforms_with, events_tab_body_conforms | | ].
  eapply conforms_seq; [apply conforms_with, training_tab_body_conforms | | reflexivity].
  apply conforms_with, glossary_tab_body_conforms.
  cbn [app]. rewrite <- !app_assoc. reflexivity.
Qed.

Lemma page_script_body evs mats gls :
  page_script evs mats gls = page_header :: page_intro :: body_script evs mats gls.
Proof. reflexivity. Qed.

(** ** The renderer on any substrate *)

Lemma visible_incl (tr : trace) (c : ui_call) : In c (visible tr) -> In c tr.
Proof. unfold visible. intro H. apply filter_In in H. tauto. Qed.

Lemma not_visible_exit (tr : trace) (c : ui_call) :
  In c tr -> In c (visible tr) \/ is_exit c = true.
Proof.
  intro H. destruct (is_exit c) eqn:Hc; [now right|]. left.
  unfold visible. apply filter_In. split; [exact H|]. now rewrite Hc.
Qed.

(** Whatever conforming code appends on any substrate is a call of its
    script or the mark of leaving a block. *)
Lemma conforms_added {A} (m : M A) (a : A) (s : trace) (tk : toolkit) (tr : trace) :
  conforms m a s ->
  exists added,
    m tk tr = (fst (m tk tr), tr ++ added) /\
    (forall stack, closes stack added = Some stack) /\
    (forall c, In c added -> In c s \/ is_exit c = true) /\
    match fst (m tk tr) with
    | Returned v => v = a /\ added = s
    | Raised e =>
        exists c rest before,
          visible s = visible added ++ c :: rest /\ tk before c = Some e
    end.
Proof.
  intro H. destruct (H tk tr) as (added & Hsnd & Hcl & Hout).
  exists added. repeat split; try assumption.
  - rewrite <- Hsnd. now destruct (m tk tr).
  - intros c Hc. destruct (fst (m tk tr)) as [v|e].
    + destruct Hout as [_ ->]. now left.
    + destruct Hout as (c0 & rest & before & Hvis & _).
      destruct (not_visible_exit _ _ Hc) as [Hv|Hx]; [left | now right].
      apply visible_incl. rewrite Hvis. apply in_or_app. now left.
Qed.

Lemma count_app (p : ui_call -> bool) (a b : trace) :
  count p (a ++ b) = count p a + count p b.
Proof. unfold count. now rewrite filter_app, length_app. Qed.

Lemma count_zero (p : ui_call -> bool) (tr : trace) :
  (forall c, In c tr -> p c = false) -> count p tr = 0.
Proof.
  unfold count. induction tr as [|c tr IH]; intro H; [reflexivity|].
  simpl. rewrite (H c) by now left. apply IH. intros x Hx. apply H. now right.
Qed.

(** No panel shows an error banner or writes to the log. *)
Lemma content_flat_map {A} (f : A -> trace) (l : list A) :
  (forall x, forallb is_content (f x) = true) -> forallb is_content (flat_map f l) = true.
Proof.
  intro H. induction l as [|x l IH]; [reflexivity|].
  simpl. now rewrite forallb_app, H, IH.
Qed.

Lemma content_glossary_category (entry : string * list Glossary.item) :
  forallb is_content (displayed (glossary_category entry)) = true.
Proof.
  destruct entry as [category terms]. rewrite glossary_category_displayed.
  cbn [forallb is_content is_error_banner is_log_entry negb andb].
  rewrite forallb_app. cbn [forallb is_content is_error_banner is_log_entry negb andb].
  rewrite andb_true_r. apply content_flat_map.
  intros [t d [f|]]; reflexivity.
Qed.

Lemma content_body_script evs mats gls :
  forallb is_content (body_script evs mats gls) = true.
Proof.
  unfold body_script, events_script, training_script, glossary_script.
  repeat (rewrite ?forallb_app;
          cbn [forallb is_content is_error_banner is_log_entry negb andb
               page_tabs_intro events_tab_intro training_tab_intro glossary_tab_intro]).
  rewrite !andb_true_r.
  assert (He : forallb is_content
                 match evs with
                 | [] => [StWarning "No Kaizen events have been logged in the data model."]
                 | _ :: _ => flat_map (fun event => displayed (event_block event))
                               (event_rows evs)
                 end = true).
  { destruct evs; [reflexivity|]. apply content_flat_map. reflexivity. }
  assert (Hm : forallb is_content
                 match mats with
                 | [] => [StWarning "No training materials are available in the data model."]
                 | _ :: _ => map (fun material => StMarkdown (training_card material) true) mats
                 end = true).
  { destruct mats; [reflexivity|]. rewrite <- flat_map_singleton.
    apply content_flat_map. reflexivity. }
  rewrite He, Hm. apply content_flat_map, content_glossary_category.
Qed.

(** The run of the renderer, once the header and the introduction are
    accepted, in terms of the run of the [try] block. *)
Lemma render_after_intro {SSM : Type} (tk : toolkit) (g : module_globals) (ssm : SSM) :
  accepts tk page_header -> accepts tk page_intro ->
  (forall body, accepts tk (StError body)) ->
  (forall msg exc_info, accepts tk (LoggerError msg exc_info)) ->
  render_kaizen_training_hub g ssm tk []
  = match page_body g tk [page_header; page_intro] with
    | (Returned _, shown) => (Returned tt, shown)
    | (Raised e, shown) => (Returned tt, shown ++ [error_banner e; log_entry e])
    end.
Proof.
  intros Hheader Hintro Hbanner Hlog.
  unfold render_kaizen_training_hub, bind, issue, try_except.
  rewrite Hheader. cbn [app]. rewrite Hintro. cbn [app].
  destruct (page_body g tk [page_header; page_intro]) as [[[]|e] shown]; [reflexivity|].
  unfold page_handler, st.error, logger.error, bind, issue.
  rewrite Hbanner, Hlog, <- app_assoc. reflexivity.
Qed.

Lemma partial_page_is_initial_part_aux {SSM : Type}
    (tk : toolkit) (g : module_globals) (ssm : SSM)
    (evs : list Kaizen.event) (mats : list Training.material) (gls : glossary_dict)
    (Hev : returns (kaizen_provider g) evs)
    (Hmat : returns (training_provider g) mats)
    (Hgl : returns (glossary_provider g) gls)
    (Hheader : accepts tk page_header)
    (Hintro : accepts tk page_intro)
    (Hbanner : forall body, accepts tk (StError body))
    (Hlog : forall msg exc_info, accepts tk (LoggerError msg exc_info)) :
  exists tr,
    render_kaizen_training_hub g ssm tk [] = (Returned tt, tr) /\
    (tr = page_script evs mats gls \/
     exists shown e c rest before,
       tr = page_header :: page_intro :: shown ++ [error_banner e; log_entry e] /\
       visible (body_script evs mats gls) = visible shown ++ c :: rest /\
       tk before c = Some e).
Proof.
  rewrite (@render_after_intro SSM tk g ssm Hheader Hintro Hbanner Hlog).
  destruct (@conforms_added _ (page_body g) tt (body_script evs mats gls) tk
              [page_header; page_intro] (@page_body_conforms g evs mats gls Hev Hmat Hgl))
    as (added & Hrun & _ & _ & Hout).
  rewrite Hrun.
  destruct (fst (page_body g tk [page_header; page_intro])) as [[]|e].
  - destruct Hout as [_ ->]. eexists. split; [reflexivity|]. now left.
  - destruct Hout as (c & rest & before & Hvis & Htk).
    eexists. split; [reflexivity|]. right.
    exists added, e, c, rest, before. repeat split; assumption.
Qed.

(** X1: when the providers return their collections and the substrate
    accepts the header, the introduction, error banners and log entries,
    the renderer returns normally on any substrate and the page is either
    the complete page, or what was displayed before the first rejected
    call followed by the banner and the log entry of what the substrate
    raised there; apart from the marks of leaving blocks, what was
    displayed is the part of the complete page before that call. *)
Theorem partial_page_is_initial_part {SSM : Type}
    (tk : toolkit) (g : module_globals) (ssm : SSM)
    (evs : list Kaizen.event) (mats : list Training.material) (gls : glossary_dict)
    (Hev : returns (kaizen_provider g) evs)
    (Hmat : returns (training_provider g) mats)
    (Hgl : returns (glossary_provider g) gls)
    (Hheader : accepts tk page_header)
    (Hintro : accepts tk page_intro)
    (Hbanner : forall body, accepts tk (StError body))
    (Hlog : forall msg exc_info, accepts tk (LoggerError msg exc_info)) :
  exists tr,
    render_kaizen_training_hub g ssm tk [] = (Returned tt, tr) /\
    (tr = page_script evs mats gls \/
     exists shown e c rest before,
       tr = page_header :: page_intro :: shown ++ [error_banner e; log_entry e] /\
       visible (body_script evs mats gls) = visible shown ++ c :: rest /\
       tk before c = Some e).
Proof.
  exact (@partial_page_is_initial_part_aux SSM tk g ssm evs mats gls
           Hev Hmat Hgl Hheader Hintro Hbanner Hlog).
Qed.

(** The theorem at the module as written, on the substrate that cannot
    render formulas. *)
Lemma partial_page_is_initial_part_witness :
  exists tr,
    render_kaizen_training_hub hub tt rejects_latex [] = (Returned tt, tr) /\
    (tr = page_script sample_events sample_materials sample_glossary \/
     exists shown e c rest before,
       tr = page_header :: page_intro :: shown ++ [error_banner e; log_entry e] /\
       visible (body_script sample_events sample_materials sample_glossary)
       = visible shown ++ c :: rest /\
       rejects_latex before c = Some e).
Proof.
  apply (@partial_page_is_initial_part unit rejects_latex hub tt
           sample_events sample_materials sample_glossary);
    intros; intro; reflexivity.
Defined.

Lemma count_body_script (evs : list Kaizen.event) (mats : list Training.material)
    (gls : glossary_dict) (shown rest : trace) (c : ui_call) :
  visible (body_script evs mats gls) = visible shown ++ c :: rest ->
  count is_error_banner shown = 0 /\ count is_log_entry shown = 0.
Proof.
  intro Hvis.
  assert (H : forall x, In x shown -> is_error_banner x = false /\ is_log_entry x = false).
  { intros x Hx. destruct (not_visible_exit _ _ Hx) as [Hv|Hexit].
    - assert (Hin : In x (body_script evs mats gls)).
      { apply visible_incl. rewrite Hvis. apply in_or_app. now left. }
      pose proof (content_body_script evs mats gls) as Hall.
      rewrite forallb_forall in Hall. specialize (Hall x Hin).
      unfold is_content in Hall. apply andb_prop in Hall.
      destruct Hall as [H1 H2]. now rewrite negb_true_iff in H1, H2.
    - destruct x; try discriminate. split; reflexivity. }
  split; apply count_zero; intros x Hx; now apply H.
Qed.

(** X2: under the same conditions the page holds exactly one error banner
    and one log entry when a call of the [try] block was rejected, and
    none when the page is complete; no failure is reported twice and none
    is dropped. *)
Theorem one_banner_per_failure {SSM : Type}
    (tk : toolkit) (g : module_globals) (ssm : SSM)
    (evs : list Kaizen.event) (mats : list Training.material) (gls : glossary_dict)
    (Hev : returns (kaizen_provider g) evs)
    (Hmat : returns (training_provider g) mats)
    (Hgl : returns (glossary_provider g) gls)
    (Hheader : accepts tk page_header)
    (Hintro : accepts tk page_intro)
    (Hbanner : forall body, accepts tk (StError body))
    (Hlog : forall msg exc_info, accepts tk (LoggerError msg exc_info)) :
  let tr := snd (render_kaizen_training_hub g ssm tk []) in
  (tr = page_script evs mats gls /\
   count is_error_banner tr = 0 /\ count is_log_entry tr = 0) \/
  (tr <> page_script evs mats gls /\
   count is_error_banner tr = 1 /\ count is_log_entry tr = 1).
Proof.
  assert (Hfull : count is_error_banner (page_script evs mats gls) = 0 /\
                  count is_log_entry (page_script evs mats gls) = 0).
  { pose proof (content_body_script evs mats gls) as Hall.
    rewrite forallb_forall in Hall.
    split; apply count_zero; intros x [<-|[<-|Hx]]; try reflexivity;
      specialize (Hall x Hx); unfold is_content in Hall; apply andb_prop in Hall;
      destruct Hall as [H1 H2]; now rewrite negb_true_iff in H1, H2. }
  destruct (@partial_page_is_initial_part_aux SSM tk g ssm evs mats gls
              Hev Hmat Hgl Hheader Hintro Hbanner Hlog) as (tr & Hrun & Hshape).
  cbv zeta. rewrite Hrun. cbn [snd].
  destruct Hshape as [->|(shown & e & c & rest & before & -> & Hvis & _)].
  - left. split; [reflexivity | exact Hfull].
  - destruct (@count_body_script _ _ _ _ _ _ Hvis) as [Hb Hl].
    assert (Hcounts :
              count is_error_banner
                (page_header :: page_intro :: shown ++ [error_banner e; log_entry e]) = 1 /\
              count is_log_entry
                (page_header :: page_intro :: shown ++ [error_banner e; log_entry e]) = 1).
    { change (page_header :: page_intro :: shown ++ [error_banner e; log_entry e])
        with ([page_header; page_intro] ++ shown ++ [error_banner e; log_entry e]).
      rewrite !count_app, Hb, Hl. split; reflexivity. }
    right. split; [|exact Hcounts].
    intro Heq. rewrite Heq in Hcounts. destruct Hfull as [Hf _].
    destruct Hcounts as [Hc _]. rewrite Hf in Hc. discriminate.
Qed.

(** The theorem at the module as written, on the substrate that cannot
    render formulas. *)
Lemma one_banner_per_failure_witness :
  let tr := snd (render_kaizen_training_hub hub tt rejects_latex []) in
  (tr = page_script sample_events sample_materials sample_glossary /\
   count is_error_banner tr = 0 /\ count is_log_entry tr = 0) \/
  (tr <> page_script sample_events sample_materials sample_glossary /\
   count is_error_banner tr = 1 /\ count is_log_entry tr = 1).
Proof.
  apply (@one_banner_per_failure unit rejects_latex hub tt
           sample_events sample_materials sample_glossary);
    intros; intro; reflexivity.
Defined.

(** ** Failures while the data is loaded *)

(** X3: the three providers are called before anything of the tabs is
    displayed.  If the training provider or the glossary provider raises
    [e], the providers before it having returned, the page is the header,
    the introduction and the error banner of [e], with one log entry:
    neither the information banner nor the tabs are shown, and the events
    that were already loaded are not displayed. *)
Theorem data_loading_failure {SSM : Type}
    (tk : toolkit) (g : module_globals) (ssm : SSM) (e : exn)
    (evs : list Kaizen.event) (mats : list Training.material)
    (Hev : returns (kaizen_provider g) evs)
    (Hfail : raises (training_provider g) e \/
             (returns (training_provider g) mats /\ raises (glossary_provider g) e))
    (Hheader : accepts tk page_header)
    (Hintro : accepts tk page_intro)
    (Hbanner : accepts tk (error_banner e))
    (Hlog : accepts tk (log_entry e)) :
  render_kaizen_training_hub g ssm tk []
  = (Returned tt, [page_header; page_intro; error_banner e; log_entry e]).
Proof.
  unfold render_kaizen_training_hub, bind, issue, try_except.
  rewrite Hheader. cbn [app]. rewrite Hintro. cbn [app].
  unfold page_body, bind. rewrite Hev.
  assert (Hhandler : page_handler e tk [page_header; page_intro]
                     = (Returned tt, [page_header; page_intro; error_banner e; log_entry e])).
  { unfold page_handler, st.error, logger.error, bind, issue.
    fold (error_banner e). fold (log_entry e). now rewrite Hbanner, Hlog. }
  destruct Hfail as [Hmat | [Hmat Hgl]].
  - rewrite Hmat. exact Hhandler.
  - rewrite Hmat, Hgl. exact Hhandler.
Qed.

(** The theorem at the module whose training provider raises. *)
Lemma data_loading_failure_witness :
  render_kaizen_training_hub hub_with_failing_training tt reliable []
  = (Returned tt, [page_header; page_intro;
                   error_banner provider_failure; log_entry provider_failure]).
Proof.
  apply (@data_loading_failure unit reliable hub_with_failing_training tt
           provider_failure sample_events sample_materials).
  - intros tk tr. reflexivity.
  - left. intros tk tr. reflexivity.
  - intro tr. reflexivity.
  - intro tr. reflexivity.
  - intro tr. reflexivity.
  - intro tr. reflexivity.
Defined.

(** ** Blocks are left on every path *)

Lemma conforms_neutral {A} (m : M A) (a : A) (s : trace) : conforms m a s -> neutral m.
Proof.
  intros H tk tr. destruct (H tk tr) as (added & Hsnd & Hcl & _).
  exists added. now split.
Qed.

Lemma neutral_bind {A B} (m : M A) (k : A -> M B) :
  neutral m -> (forall a, neutral (k a)) -> neutral (bind m k).
Proof.
  intros Hm Hk tk tr. unfold bind.
  destruct (Hm tk tr) as (added1 & Hsnd1 & Hcl1).
  destruct (m tk tr) as [[v|e] tr1]; simpl in *; subst tr1.
  - destruct (Hk v tk (tr ++ added1)) as (added2 & Hsnd2 & Hcl2).
    exists (added1 ++ added2). rewrite Hsnd2, app_assoc. split; [reflexivity|].
    intro stack. now rewrite closes_app, Hcl1, Hcl2.
  - exists added1. now split.
Qed.

Lemma neutral_try_except {A} (body : M A) (handler : exn -> M A) :
  neutral body -> (forall e, neutral (handler e)) -> neutral (try_except body handler).
Proof.
  intros Hb Hh tk tr. unfold try_except.
  destruct (Hb tk tr) as (added1 & Hsnd1 & Hcl1).
  destruct (body tk tr) as [[v|e] tr1]; simpl in *; subst tr1.
  - exists added1. now split.
  - destruct (Hh e tk (tr ++ added1)) as (added2 & Hsnd2 & Hcl2).
    exists (added1 ++ added2). rewrite Hsnd2, app_assoc. split; [reflexivity|].
    intro stack. now rewrite closes_app, Hcl1, Hcl2.
Qed.

Lemma neutral_quiet {A} (provider : M A) : quiet provider -> neutral provider.
Proof.
  intros H tk tr. exists []. rewrite H, app_nil_r. now split.
Qed.

Lemma neutral_issue (c : ui_call) : is_marker c = false -> neutral (issue c).
Proof. intro H. exact (conforms_neutral (conforms_issue c H)). Qed.

Lemma page_body_neutral (g : module_globals) :
  quiet (kaizen_provider g) -> quiet (training_provider g) ->
  quiet (glossary_provider g) -> neutral (page_body g).
Proof.
  intros Hev Hmat Hgl. unfold page_body.
  apply neutral_bind; [now apply neutral_quiet|]. intro evs.
  apply neutral_bind; [now apply neutral_quiet|]. intro mats.
  apply neutral_bind; [now apply neutral_quiet|]. intro gls.
  pose (g' := {| kaizen_provider := ret evs; training_provider := ret mats;
                 glossary_provider := ret gls |}).
  assert (H : conforms (page_body g') tt (body_script evs mats gls)).
  { apply page_body_conforms; intros tk tr; reflexivity. }
  apply conforms_neutral in H.
  intros tk tr. exact (H tk tr).
Qed.

(** X4: on any substrate, and whether the page is completed or a call
    fails in the middle of a tab, a container, a column or an expander,
    every block the renderer has entered is left again, innermost first,
    before the renderer returns or raises. *)
Theorem blocks_are_left_on_every_path {SSM : Type}
    (tk : toolkit) (g : module_globals) (ssm : SSM)
    (Hev : quiet (kaizen_provider g))
    (Hmat : quiet (training_provider g))
    (Hgl : quiet (glossary_provider g)) :
  well_nested (snd (render_kaizen_training_hub g ssm tk [])).
Proof.
  assert (H : neutral (render_kaizen_training_hub g ssm)).
  { unfold render_kaizen_training_hub.
    apply neutral_bind; [apply neutral_issue; reflexivity|]. intros _.
    apply neutral_bind; [apply neutral_issue; reflexivity|]. intros _.
    apply neutral_try_except; [now apply page_body_neutral|].
    intro e. unfold page_handler, st.error, logger.error.
    apply neutral_bind; [apply neutral_issue; reflexivity|]. intros _.
    apply neutral_issue. reflexivity. }
  destruct (H tk []) as (added & Hsnd & Hcl).
  unfold well_nested. rewrite Hsnd. apply Hcl.
Qed.

(** The theorem at the module as written, on the substrate that cannot
    render formulas: the first formula is rejected inside an expander
    inside the third tab. *)
Lemma blocks_are_left_on_every_path_witness :
  well_nested (snd (render_kaizen_training_hub hub tt rejects_latex [])).
Proof.
  apply (@blocks_are_left_on_every_path unit rejects_latex hub tt);
    intros tk tr; reflexivity.
Defined.

(** ** Report buttons *)

Ltac walk_calls H :=
  simpl in H;
  repeat (destruct H as [<-|H]; [try exact I|]);
  try contradiction.

Lemma event_block_buttons (evs : list Kaizen.event) (event : Kaizen.event) (c : ui_call) :
  In event evs -> In c (displayed (event_block event)) -> button_ok evs c.
Proof.
  intros Hin H. walk_calls H.
  simpl. repeat split. exists event. now split.
Qed.

Lemma glossary_item_buttons (evs : list Kaizen.event) (item : Glossary.item) (c : ui_call) :
  In c (displayed (glossary_item item)) -> button_ok evs c.
Proof. intro H. destruct item as [t d [f|]]; walk_calls H. Qed.

Ltac split_in H :=
  lazymatch type of H with
  | In _ (_ ++ _) => apply in_app_or in H; destruct H as [H|H]; split_in H
  | In _ (_ :: _) => destruct H as [<-|H]; [exact I | split_in H]
  | In _ [] => contradiction
  | _ => idtac
  end.

Lemma body_script_buttons (evs : list Kaizen.event) (mats : list Training.material)
    (gls : glossary_dict) (c : ui_call) :
  In c (body_script evs mats gls) -> button_ok evs c.
Proof.
  unfold body_script, events_script, training_script, glossary_script,
    page_tabs_intro, events_tab_intro, training_tab_intro, glossary_tab_intro.
  intro H. split_in H.
  - destruct evs as [|e l]; [walk_calls H|].
    apply in_flat_map in H. destruct H as (event & Hev & Hc).
    apply event_block_buttons with (event := event); [|exact Hc].
    eapply Permutation_in; [apply event_rows_perm | exact Hev].
  - destruct mats as [|m l]; [walk_calls H|].
    apply in_map_iff in H. destruct H as (x & <- & _). exact I.
  - apply in_flat_map in H. destruct H as ([category terms] & _ & Hc).
    rewrite glossary_category_displayed in Hc.
    destruct Hc as [<-|[<-|Hc]]; try exact I.
    apply in_app_or in Hc. destruct Hc as [Hc|Hc]; [|walk_calls Hc].
    apply in_flat_map in Hc. destruct Hc as (item & _ & Hc).
    now apply glossary_item_buttons with (item := item).
Qed.

Lemma button_ok_exit (evs : list Kaizen.event) (c : ui_call) :
  is_exit c = true -> button_ok evs c.
Proof. destruct c; try discriminate. intros _. exact I. Qed.

(** X5: whatever the substrate does and whatever events are loaded, the
    only buttons the renderer ever displays are the report buttons of
    loaded events, each labelled View Full A3 Report, of primary type,
    keyed by the event's report key, and disabled. *)
Theorem report_buttons_stay_disabled {SSM : Type}
    (tk : toolkit) (g : module_globals) (ssm : SSM)
    (evs : list Kaizen.event) (mats : list Training.material) (gls : glossary_dict)
    (Hev : returns (kaizen_provider g) evs)
    (Hmat : returns (training_provider g) mats)
    (Hgl : returns (glossary_provider g) gls) :
  Forall (button_ok evs) (snd (render_kaizen_training_hub g ssm tk [])).
Proof.
  unfold render_kaizen_training_hub, bind, issue, try_except.
  destruct (tk [] page_header); [constructor|]. cbn [app].
  destruct (tk [page_header] page_intro); [repeat constructor|]. cbn [app].
  destruct (@conforms_added _ (page_body g) tt (body_script evs mats gls) tk
              [page_header; page_intro]
              (@page_body_conforms g evs mats gls Hev Hmat Hgl))
    as (added & Hrun & _ & Hin & _).
  assert (Hadded : Forall (button_ok evs) ([page_header; page_intro] ++ added)).
  { apply Forall_app. split; [repeat constructor|].
    apply Forall_forall. intros c Hc. destruct (Hin c Hc) as [Hs|Hx].
    - eapply body_script_buttons, Hs.
    - now apply button_ok_exit. }
  rewrite Hrun. destruct (fst (page_body g tk [page_header; page_intro])) as [v|e];
    [exact Hadded|].
  unfold page_handler, st.error, logger.error, bind, issue.
  destruct (tk _ (StError _)); cbn [snd]; [exact Hadded|].
  destruct (tk _ (LoggerError _ _)); cbn [snd].
  - apply Forall_app. split; [exact Hadded | repeat constructor].
  - apply Forall_app. split; [|repeat constructor].
    apply Forall_app. split; [exact Hadded | repeat constructor].
Qed.

(** The theorem at the module as written, on the substrate that cannot
    render formulas. *)
Lemma report_buttons_stay_disabled_witness :
  Forall (button_ok sample_events)
         (snd (render_kaizen_training_hub hub tt rejects_latex [])).
Proof.
  apply (@report_buttons_stay_disabled unit rejects_latex hub tt
           sample_events sample_materials sample_glossary);
    intros tk tr; reflexivity.
Defined.

(** ** Every event is shown once *)

Lemma count_flat_map_one {A} (p : ui_call -> bool) (f : A -> trace) (l : list A) :
  (forall x, count p (f x) = 1) -> count p (flat_map f l) = List.length l.
Proof.
  intro H. induction l as [|x l IH]; [reflexivity|].
  simpl. now rewrite count_app, H, IH.
Qed.

Lemma count_flat_map_zero {A} (p : ui_call -> bool) (f : A -> trace) (l : list A) :
  (forall x, count p (f x) = 0) -> count p (flat_map f l) = 0.
Proof.
  intro H. induction l as [|x l IH]; [reflexivity|].
  simpl. now rewrite count_app, H, IH.
Qed.

Lemma NoDup_map_injective {A B} (f : A -> B) (l : list A) :
  (forall a b, f a = f b -> a = b) -> NoDup l -> NoDup (map f l).
Proof.
  intros Hinj Hl. induction Hl as [|x l Hx Hl IH]; simpl; constructor; [|exact IH].
  intro Hin. apply in_map_iff in Hin. destruct Hin as (y & Hy & Hyl).
  apply Hinj in Hy. now subst.
Qed.

(** X6: for any list of events with pairwise distinct identifiers, also
    one with repeated dates, the Event Log panel shows the warning
    exactly when the list is empty, and otherwise one bordered block per
    event: no event is dropped or shown twice, the report keys shown are
    pairwise distinct, and the blocks stand in non-increasing order of
    the date strings. *)
Theorem every_event_is_shown_once (events : list Kaizen.event)
    (Hids : NoDup (map Kaizen.id events)) :
  let shown := displayed (events_tab_body events) in
  count is_event_block shown = List.length events /\
  count is_warning shown = match events with [] => 1 | _ => 0 end /\
  button_keys shown = map report_key (event_rows events) /\
  NoDup (button_keys shown) /\
  Permutation (event_rows events) events /\
  StronglySorted (fun a b => str_le (Kaizen.date b) (Kaizen.date a) = true)
                 (event_rows events).
Proof.
  assert (Hkeys : NoDup (map report_key (event_rows events))).
  { assert (Hmap : map report_key (event_rows events)
                   = map (String.append "report_") (map Kaizen.id (event_rows events)))
      by (rewrite map_map; reflexivity).
    rewrite Hmap. apply NoDup_map_injective.
    - intros a b Hab. simpl in Hab. now injection Hab.
    - eapply Permutation_NoDup; [|exact Hids].
      apply Permutation_map. symmetry. apply event_rows_perm. }
  cbv zeta. rewrite (yields_displayed (events_tab_body_yields events)).
  repeat apply conj.
  - unfold events_script. rewrite count_app.
    destruct events as [|e l]; [reflexivity|].
    rewrite count_flat_map_one by reflexivity.
    rewrite (Permutation_length (event_rows_perm (e :: l))). reflexivity.
  - unfold events_script. rewrite count_app.
    destruct events as [|e l]; [reflexivity|].
    rewrite count_flat_map_zero by reflexivity. reflexivity.
  - rewrite <- (yields_displayed (events_tab_body_yields events)).
    apply event_rows_keys.
  - rewrite <- (yields_displayed (events_tab_body_yields events)), event_rows_keys.
    exact Hkeys.
  - apply event_rows_perm.
  - apply event_rows_sorted.
Qed.

(** The theorem at two events of the same day. *)
Lemma every_event_is_shown_once_witness :
  let shown := displayed (events_tab_body same_day_events) in
  count is_event_block shown = List.length same_day_events /\
  count is_warning shown = match same_day_events with [] => 1 | _ => 0 end /\
  button_keys shown = map report_key (event_rows same_day_events) /\
  NoDup (button_keys shown) /\
  Permutation (event_rows same_day_events) same_day_events /\
  StronglySorted (fun a b => str_le (Kaizen.date b) (Kaizen.date a) = true)
                 (event_rows same_day_events).
Proof.
  apply (@every_event_is_shown_once same_day_events).
  repeat constructor; simpl; intuition discriminate.
Defined.

(** ** Glossary sections follow the names *)

Lemma glossary_category_sections (entry : string * list Glossary.item) :
  sections (displayed (glossary_category entry))
  = [("**" +++ fst entry +++ "**", String.eqb (fst entry) "Lean Principles")].
Proof.
  destruct entry as [category terms]. rewrite glossary_category_displayed.
  unfold sections. cbn [flat_map app fst].
  rewrite flat_map_app, flat_map_flat_map. cbn [flat_map app].
  rewrite (flat_map_nil _ _ glossary_item_sections). reflexivity.
Qed.

(** X7: for any glossary the Glossary panel holds one collapsible section
    per category, in the order of the mapping, labelled with the category
    in bold; a section is expanded exactly when its category is named
    Lean Principles, wherever it stands, so the number of expanded
    sections is the number of categories of that name (none when the
    glossary has no such category, whatever comes first). *)
Theorem glossary_sections_follow_names (glossary : glossary_dict) :
  sections (displayed (glossary_tab_body glossary))
  = map (fun entry => ("**" +++ fst entry +++ "**",
                       String.eqb (fst entry) "Lean Principles")) glossary /\
  List.length (filter snd (sections (displayed (glossary_tab_body glossary))))
  = List.length (filter (fun entry => String.eqb (fst entry) "Lean Principles") glossary).
Proof.
  assert (H : sections (displayed (glossary_tab_body glossary))
              = map (fun entry => ("**" +++ fst entry +++ "**",
                                   String.eqb (fst entry) "Lean Principles")) glossary).
  { rewrite (yields_displayed (glossary_tab_body_yields glossary)).
    unfold glossary_script, sections.
    rewrite flat_map_app, flat_map_flat_map. cbn [glossary_tab_intro flat_map app].
    rewrite <- flat_map_singleton.
    apply flat_map_ext_all, glossary_category_sections. }
  split; [exact H|].
  rewrite H. clear H. induction glossary as [|[category terms] l IH]; [reflexivity|].
  cbn [map filter snd fst].
  destruct (String.eqb category "Lean Principles"); cbn [List.length]; now rewrite IH.
Qed.

(** ** The markup of a training card *)

Lemma prefix_here (s t : string) : String.prefix s (s +++ t) = true.
Proof.
  induction s as [|a s IH]; [now destruct t|].
  simpl. destruct (ascii_dec a a) as [_|Hne]; [exact IH | now elim Hne].
Qed.

Lemma prefix_app_r (s t u : string) :
  String.prefix s t = true -> String.prefix s (t +++ u) = true.
Proof.
  revert s. induction t as [|b t IH]; intros s H.
  - destruct s; [now destruct u | discriminate].
  - destruct s as [|a s]; [reflexivity|].
    simpl in *. destruct (ascii_dec a b); [now apply IH | discriminate].
Qed.

Lemma contains_prefix (s h : string) : String.prefix s h = true -> contains s h = true.
Proof. intro H. destruct h; cbn [contains]; now rewrite H. Qed.

Lemma contains_here (s t : string) : contains s (s +++ t) = true.
Proof. apply contains_prefix, prefix_here. Qed.

Lemma contains_skip (s u t : string) :
  contains s t = true -> contains s (u +++ t) = true.
Proof.
  intro H. induction u as [|a u IH]; [exact H|].
  simpl. rewrite IH. apply orb_true_r.
Qed.

Lemma contains_app_r (s t u : string) :
  contains s t = true -> contains s (t +++ u) = true.
Proof.
  induction t as [|b t IH]; intro H.
  - simpl in H. rewrite orb_false_r in H.
    destruct s; [|discriminate]. now destruct u.
  - cbn [contains] in H. apply orb_prop in H. destruct H as [H|H].
    + change (String b t +++ u) with (String b (t +++ u)).
      cbn [contains]. apply orb_true_iff. left.
      now apply (@prefix_app_r s (String b t) u).
    + change (String b t +++ u) with (String b (t +++ u)).
      cbn [contains]. rewrite (IH H). apply orb_true_r.
Qed.

Lemma contains_join (x : string) (l : list string) :
  In x l -> contains x (join l) = true.
Proof.
  induction l as [|y l IH]; [contradiction|].
  intros [->|H]; simpl.
  - apply contains_here.
  - apply contains_skip. now apply IH.
Qed.

Lemma contains_join_app (x t : string) (l : list string) :
  In x l -> contains x (join l +++ t) = true.
Proof. intro H. apply contains_app_r, contains_join, H. Qed.

Ltac find_in_card :=
  unfold training_card;
  repeat lazymatch goal with
         | |- contains ?s (?s +++ _) = true => exact (contains_here s _)
         | |- contains ?s (?u +++ ?t) = true => refine (@contains_skip s u t _)
         end.

Ltac find_item_in_card :=
  unfold training_card;
  repeat lazymatch goal with
         | |- contains ?s (join ?l +++ ?t) = true => apply contains_join_app
         | |- contains ?s (?u +++ ?t) = true => refine (@contains_skip s u t _)
         end.

(** X8: the card of any material carries its icon, title, type, duration,
    audience, description, recommended reading and link, and one list
    item per learning objective, each exactly as it is in the record:
    nothing is escaped or cut. *)
Theorem card_embeds_fields (material : Training.material) :
  let card := training_card material in
  contains (Training.icon material) card = true /\
  contains (Training.title material) card = true /\
  contains (Training.type material) card = true /\
  contains (str_tenths (Training.duration_hr material)) card = true /\
  contains (Training.target_audience material) card = true /\
  contains (Training.description material) card = true /\
  contains (Training.recommended_reading material) card = true /\
  contains (Training.link material) card = true /\
  forallb (fun obj => contains (list_item obj) card)
          (Training.learning_objectives material) = true.
Proof.
  cbv zeta. repeat apply conj; try (find_in_card; fail).
  apply forallb_forall. intros obj Hin. find_item_in_card.
  apply (in_map list_item). exact Hin.
Qed.

(** ** Counting the list items of a card *)

Lemma append_assoc (a b c : string) : (a +++ b) +++ c = a +++ (b +++ c).
Proof. induction a as [|x a IH]; [reflexivity|]. simpl. now rewrite IH. Qed.

Lemma append_nil_r (a : string) : a +++ "" = a.
Proof. induction a as [|x a IH]; [reflexivity|]. simpl. now rewrite IH. Qed.

Lemma occurrences_cons (needle : string) (a : ascii) (hay : string) :
  occurrences needle (String a hay)
  = (if String.prefix needle (String a hay) then 1 else 0) + occurrences needle hay.
Proof. reflexivity. Qed.

Lemma occurrences_skip (a t : string) :
  no_item_start a = true -> occurrences "<li>" (a +++ t) = occurrences "<li>" t.
Proof.
  induction a as [|x a IH]; intro H; [reflexivity|].
  cbn [no_item_start] in H. apply andb_prop in H. destruct H as [Hx Ha].
  change (String x a +++ t) with (String x (a +++ t)).
  rewrite occurrences_cons, (IH Ha).
  replace (String.prefix "<li>" (String x (a +++ t))) with false; [reflexivity|].
  cbn [String.prefix]. destruct (ascii_dec "<" x) as [<-|_]; [|reflexivity].
  cbn [Ascii.eqb Bool.eqb] in Hx.
  destruct a as [|b a]; [discriminate|].
  change (String b a +++ t) with (String b (a +++ t)).
  cbn [String.prefix].
  destruct (ascii_dec "l" b) as [<-|_]; [discriminate | reflexivity].
Qed.

Lemma occurrences_plain (a : string) :
  no_item_start a = true -> occurrences "<li>" a = 0.
Proof.
  intro H. rewrite <- (append_nil_r a). now rewrite occurrences_skip.
Qed.

Lemma occurrences_item (obj t : string) :
  no_item_start obj = true ->
  occurrences "<li>" (list_item obj +++ t) = 1 + occurrences "<li>" t.
Proof.
  intro H. unfold list_item. rewrite !append_assoc.
  change ("<li>" +++ obj +++ "</li>" +++ t)
    with (String "<" (String "l" (String "i" (String ">" (obj +++ "</li>" +++ t))))).
  rewrite !occurrences_cons.
  rewrite (@occurrences_skip obj _ H), (@occurrences_skip "</li>" t eq_refl).
  cbn [String.prefix]. cbv [ascii_dec ascii_rec ascii_rect bool_dec sumbool_rec sumbool_rect].
  now destruct (obj +++ "</li>" +++ t).
Qed.

Lemma occurrences_items (objs : list string) (t : string) :
  forallb no_item_start objs = true ->
  occurrences "<li>" (join (map list_item objs) +++ t)
  = List.length objs + occurrences "<li>" t.
Proof.
  induction objs as [|obj objs IH]; intro H; [reflexivity|].
  cbn [forallb] in H. apply andb_prop in H. destruct H as [Hobj Hobjs].
  cbn [map join fold_right List.length]. rewrite append_assoc.
  rewrite (@occurrences_item obj _ Hobj). fold (join (map list_item objs)).
  now rewrite (IH Hobjs).
Qed.

Lemma no_item_start_app (a b : string) :
  no_item_start a = true -> no_item_start b = true -> no_item_start (a +++ b) = true.
Proof.
  intros Ha Hb. induction a as [|x a IH]; [exact Hb|].
  cbn [no_item_start] in Ha. apply andb_prop in Ha. destruct Ha as [Hx Ha].
  change (String x a +++ b) with (String x (a +++ b)).
  cbn [no_item_start]. rewrite (IH Ha), andb_true_r.
  destruct (Ascii.eqb x "<"); [|reflexivity].
  destruct a as [|y a]; [discriminate | exact Hx].
Qed.

Lemma no_item_start_uint (d : Decimal.uint) :
  no_item_start (NilEmpty.string_of_uint d) = true.
Proof. induction d; simpl; auto. Qed.

Lemma no_item_start_tenths (x : tenths) : no_item_start (str_tenths x) = true.
Proof.
  unfold str_tenths, str_nat.
  repeat apply no_item_start_app; try apply no_item_start_uint; reflexivity.
Qed.

Ltac skip_plain_text :=
  repeat lazymatch goal with
         | |- context [occurrences "<li>" (?a +++ ?t)] =>
             rewrite (@occurrences_skip a t)
               by first [ assumption | reflexivity | apply no_item_start_tenths ]
         end.

(** X9: the fields of a material go into the markup of its card as they
    are.  When no text field of the material starts a list item of its
    own (no [<] directly followed by [l], none at the end of a field),
    the card lists exactly as many items as the material has learning
    objectives; a material whose title carries a list item of its own
    gets a card with one item more than it has objectives. *)
Theorem card_lists_the_objectives (material : Training.material)
    (Hplain : plain_material material = true) :
  occurrences "<li>" (training_card material)
  = List.length (Training.learning_objectives material) /\
  (plain_material marked_up_material = false /\
   occurrences "<li>" (training_card marked_up_material)
   = 1 + List.length (Training.learning_objectives marked_up_material)).
Proof.
  split; [|split; vm_compute; reflexivity].
  unfold plain_material in Hplain. rewrite !andb_true_iff in Hplain.
  destruct Hplain as [[[[[[[Hicon Htitle] Htype] Haud] Hdesc] Hobjs] Hread] Hlink].
  unfold training_card. skip_plain_text.
  change (map (fun obj => "<li>" +++ obj +++ "</li>")
              (Training.learning_objectives material))
    with (map list_item (Training.learning_objectives material)).
  rewrite (@occurrences_items _ _ Hobjs). skip_plain_text.
  rewrite occurrences_plain by reflexivity. apply Nat.add_0_r.
Qed.

(** The theorem at the first material of the catalog, TRN-101. *)
Lemma card_lists_the_objectives_witness :
  occurrences "<li>" (training_card first_material)
  = List.length (Training.learning_objectives first_material) /\
  (plain_material marked_up_material = false /\
   occurrences "<li>" (training_card marked_up_material)
   = 1 + List.length (Training.learning_objectives marked_up_material)).
Proof.
  apply (@card_lists_the_objectives first_material). vm_compute. reflexivity.
Defined.

(** ** Each panel shows its own collection *)

(** X10: when the three providers return, the page is the header, the
    introduction, the information banner, the three tabs, and then the
    three panels in the order Event Log, Training Library, Glossary;
    what stands in a panel is what the body of its tab displays for its
    own collection alone, whatever the other two collections are. *)
Theorem panels_show_their_own_collection
    (g : module_globals) (evs : list Kaizen.event)
    (mats : list Training.material) (gls : glossary_dict)
    (Hev : returns (kaizen_provider g) evs)
    (Hmat : returns (training_provider g) mats)
    (Hgl : returns (glossary_provider g) gls) :
  let page := displayed (render_kaizen_training_hub g tt) in
  page = page_header :: page_intro :: page_tabs_intro ++
         Enter (CtxTab 0) :: displayed (events_tab_body evs) ++
         Exit (CtxTab 0) :: Enter (CtxTab 1) :: displayed (training_tab_body mats) ++
         Exit (CtxTab 1) :: Enter (CtxTab 2) :: displayed (glossary_tab_body gls) ++
         [Exit (CtxTab 2)] /\
  panel 0 page = displayed (events_tab_body evs) /\
  panel 1 page = displayed (training_tab_body mats) /\
  panel 2 page = displayed (glossary_tab_body gls).
Proof.
  cbv zeta.
  rewrite (yields_displayed (events_tab_body_yields evs)),
    (yields_displayed (training_tab_body_yields mats)),
    (yields_displayed (glossary_tab_body_yields gls)).
  unfold displayed at 1 2 3 4.
  rewrite (@page_displayed unit g tt evs mats gls Hev Hmat Hgl). cbn [snd].
  split; [reflexivity | apply page_panels].
Qed.

(** The theorem at the module as written. *)
Lemma panels_show_their_own_collection_witness :
  let page := displayed (render_kaizen_training_hub hub tt) in
  page = page_header :: page_intro :: page_tabs_intro ++
         Enter (CtxTab 0) :: displayed (events_tab_body sample_events) ++
         Exit (CtxTab 0) :: Enter (CtxTab 1) ::
         displayed (training_tab_body sample_materials) ++
         Exit (CtxTab 1) :: Enter (CtxTab 2) ::
         displayed (glossary_tab_body sample_glossary) ++
         [Exit (CtxTab 2)] /\
  panel 0 page = displayed (events_tab_body sample_events) /\
  panel 1 page = displayed (training_tab_body sample_materials) /\
  panel 2 page = displayed (glossary_tab_body sample_glossary).
Proof.
  apply (@panels_show_their_own_collection hub sample_events sample_materials
           sample_glossary); intros tk tr; reflexivity.
Defined.

(** ** The Event Log does not depend on the order of the provider *)

Lemma str_lt_asym (a b : string) : str_lt a b = true -> str_lt b a = true -> False.
Proof.
  unfold str_lt, String.ltb. rewrite (String.compare_antisym a b).
  destruct (String.compare b a); simpl; intros; discriminate.
Qed.

Lemma strictly_sorted_unique (l1 l2 : list Kaizen.event) :
  StronglySorted (fun a b => str_lt (Kaizen.date b) (Kaizen.date a) = true) l1 ->
  StronglySorted (fun a b => str_lt (Kaizen.date b) (Kaizen.date a) = true) l2 ->
  Permutation l1 l2 -> l1 = l2.
Proof.
  intro H1. revert l2. induction H1 as [|a l1 Hs1 IH Ha]; intros l2 H2 Hperm.
  - apply Permutation_nil in Hperm. now subst.
  - destruct l2 as [|b l2].
    + exfalso. eapply Permutation_nil_cons. symmetry. exact Hperm.
    + apply StronglySorted_inv in H2. destruct H2 as [Hs2 Hb].
      assert (Hab : a = b).
      { assert (Hin_a : In a (b :: l2))
          by (eapply Permutation_in; [exact Hperm | now left]).
        assert (Hin_b : In b (a :: l1))
          by (eapply Permutation_in; [symmetry; exact Hperm | now left]).
        destruct Hin_a as [->|Hin_a]; [reflexivity|].
        destruct Hin_b as [->|Hin_b]; [reflexivity|].
        rewrite Forall_forall in Ha, Hb.
        exfalso. exact (str_lt_asym _ _ (Ha b Hin_b) (Hb a Hin_a)). }
      subst b. f_equal. apply IH; [exact Hs2|].
      eapply Permutation_cons_inv. exact Hperm.
Qed.

Lemma event_rows_strict (events : list Kaizen.event) :
  NoDup (map Kaizen.date events) ->
  StronglySorted (fun a b => str_lt (Kaizen.date b) (Kaizen.date a) = true)
                 (event_rows events).
Proof.
  intro Hdistinct.
  apply StronglySorted_strict
    with (f := Kaizen.date)
         (R := fun a b => str_le (Kaizen.date b) (Kaizen.date a) = true).
  - intros a b Hle Hne. apply str_le_lt; [exact Hle | congruence].
  - eapply Permutation_NoDup; [|exact Hdistinct].
    apply Permutation_map. symmetry. apply event_rows_perm.
  - apply event_rows_sorted.
Qed.

(** X11: when the dates are pairwise distinct, the Event Log panel does
    not depend on the order in which the provider lists the events: two
    lists with the same events give the same panel. *)
Theorem event_log_ignores_provider_order
    (events reordered : list Kaizen.event)
    (Hdistinct : NoDup (map Kaizen.date events))
    (Hperm : Permutation events reordered) :
  event_rows events = event_rows reordered /\
  displayed (events_tab_body events) = displayed (events_tab_body reordered).
Proof.
  assert (Hdistinct' : NoDup (map Kaizen.date reordered)).
  { eapply Permutation_NoDup; [|exact Hdistinct]. now apply Permutation_map. }
  assert (Hrows : event_rows events = event_rows reordered).
  { apply strictly_sorted_unique; try now apply event_rows_strict.
    rewrite event_rows_perm, Hperm. symmetry. apply event_rows_perm. }
  split; [exact Hrows|].
  rewrite (yields_displayed (events_tab_body_yields events)),
    (yields_displayed (events_tab_body_yields reordered)).
  unfold events_script. rewrite Hrows.
  destruct events as [|e l], reordered as [|e' l']; try reflexivity.
  - exfalso. eapply Permutation_nil_cons. exact Hperm.
  - exfalso. eapply Permutation_nil_cons. symmetry. exact Hperm.
Qed.

(** The theorem at the events of the module and the same events in
    reverse order. *)
Lemma event_log_ignores_provider_order_witness :
  event_rows sample_events = event_rows (rev sample_events) /\
  displayed (events_tab_body sample_events)
  = displayed (events_tab_body (rev sample_events)).
Proof.
  apply (@event_log_ignores_provider_order sample_events (rev sample_events)).
  - repeat constructor; simpl; intuition discriminate.
  - apply Permutation_rev.
Defined.

Lemma str_lt_irrefl (a : string) : str_lt a a = false.
Proof.
  destruct (str_lt a a) eqn:H; [|reflexivity]. exfalso. exact (str_lt_asym _ _ H H).
Qed.

Lemma strictly_sorted_distinct (l : list Kaizen.event) :
  StronglySorted (fun a b => str_lt (Kaizen.date b) (Kaizen.date a) = true) l ->
  NoDup (map Kaizen.date l).
Proof.
  induction 1 as [|a l Hs IH Ha]; simpl; constructor; [|exact IH].
  intro Hin. apply in_map_iff in Hin. destruct Hin as (b & Heq & Hb).
  rewrite Forall_forall in Ha. specialize (Ha b Hb).
  rewrite Heq, str_lt_irrefl in Ha. discriminate.
Qed.

(** X12: a list of events that already runs from the latest date string
    to the earliest, strictly, is shown in the order it has: the sort
    changes nothing, and the panel is the blocks of the events one after
    the other. *)
Theorem sorted_events_keep_their_order
    (events : list Kaizen.event)
    (Hsorted : StronglySorted
                 (fun a b => str_lt (Kaizen.date b) (Kaizen.date a) = true) events) :
  event_rows events = events /\
  button_keys (displayed (events_tab_body events)) = map report_key events.
Proof.
  assert (Hrows : event_rows events = events).
  { apply strictly_sorted_unique;
      [apply event_rows_strict, strictly_sorted_distinct, Hsorted
      | exact Hsorted | apply event_rows_perm]. }
  split; [exact Hrows|]. now rewrite event_rows_keys, Hrows.
Qed.

(** The theorem at the two events dated 2025-9-30 and 2025-10-1, in the
    order of their date strings. *)
Lemma sorted_events_keep_their_order_witness :
  event_rows (rev unpadded_events) = rev unpadded_events /\
  button_keys (displayed (events_tab_body (rev unpadded_events)))
  = map report_key (rev unpadded_events).
Proof.
  apply (@sorted_events_keep_their_order (rev unpadded_events)).
  repeat constructor.
Defined.

(** ** Failures of the handler *)

(** X13: the [except] clause is not protected itself.  If the [try]
    block raised [e] and the substrate then raises [e'] on the error
    banner, or accepts the banner and raises [e'] on the log entry, the
    renderer raises [e'] to its caller in place of [e], and no log entry
    is written. *)
Theorem handler_failure_escapes {SSM : Type}
    (tk : toolkit) (g : module_globals) (ssm : SSM) (e e' : exn) (shown : trace)
    (Hheader : accepts tk page_header)
    (Hintro : accepts tk page_intro)
    (Hbody : page_body g tk [page_header; page_intro] = (Raised e, shown))
    (Hreject : tk shown (error_banner e) = Some e' \/
               (tk shown (error_banner e) = None /\
                tk (shown ++ [error_banner e]) (log_entry e) = Some e')) :
  let run := render_kaizen_training_hub g ssm tk [] in
  fst run = Raised e' /\
  (snd run = shown \/ snd run = shown ++ [error_banner e]) /\
  count is_log_entry (snd run) = count is_log_entry shown.
Proof.
  cbv zeta. unfold render_kaizen_training_hub, bind, issue, try_except.
  rewrite Hheader. cbn [app]. rewrite Hintro. cbn [app]. rewrite Hbody.
  unfold page_handler, st.error, logger.error, bind, issue.
  fold (error_banner e). fold (log_entry e).
  destruct Hreject as [Hb | [Hb Hl]].
  - rewrite Hb. cbn [fst snd]. repeat split. now left.
  - rewrite Hb, Hl. cbn [fst snd]. repeat split; [now right|].
    rewrite count_app. cbn. apply Nat.add_0_r.
Qed.

(** The theorem at the module whose event provider raises, on the
    substrate that cannot show error banners. *)
Lemma handler_failure_escapes_witness :
  let run := render_kaizen_training_hub hub_with_failing_events tt rejects_banners [] in
  fst run = Raised banner_failure /\
  (snd run = [page_header; page_intro] \/
   snd run = [page_header; page_intro] ++ [error_banner provider_failure]) /\
  count is_log_entry (snd run) = count is_log_entry [page_header; page_intro].
Proof.
  apply (@handler_failure_escapes unit rejects_banners hub_with_failing_events tt
           provider_failure banner_failure [page_header; page_intro]).
  - intro tr. reflexivity.
  - intro tr. reflexivity.
  - reflexivity.
  - left. reflexivity.
Defined.
